(** * fluent-wysiwyg-editor: the TextEditor component and its style commands

    The development follows [app/src/editor/TextEditor.tsx].  The component
    keeps a draft-js [EditorState] together with a handful of toolbar flags
    in React state; its handlers replace that state.  The draft-js document
    model is embedded as plain records, the handlers as functions from the
    component state to the next component state. *)

From Stdlib Require Import ZArith Lia.
From stdpp Require Import base decidable option list gmap strings.

Open Scope Z_scope.
Open Scope nat_scope.

(** ** The document model (draft-js [EditorState])

    draft-js is a dependency: its types are not part of the repository, and
    the records below follow the data model of the specification
    (section 3). *)

(** Modelled from the spec: the inline styles of draft-js that the toolbar
    uses. *)
Inductive InlineStyle := BOLD | ITALIC | UNDERLINE | STRIKETHROUGH.

#[global] Instance InlineStyle_eq_dec : EqDecision InlineStyle.
Proof. solve_decision. Defined.

(** draft-js block types are strings: the component compares them with
    string literals and stores them in the heading dropdown as they are. *)
Definition BlockType := string.

(** Modelled from the spec: the data of a link entity. *)
Record LinkEntity := { url : string; linkText : string }.

(** A range is half open: it covers the offsets [p] with [start <= p < end]. *)
Definition StyleRange : Type := InlineStyle * nat * nat.
Definition EntityRange : Type := string * nat * nat.

(** Modelled from the spec: a [ContentBlock] of draft-js, with its key, type,
    text, inline style ranges, entity ranges and depth. *)
Record Block := {
  key : string;
  type : BlockType;
  text : string;
  inlineStyleRanges : list StyleRange;
  entityRanges : list EntityRange;
  depth : Z
}.

(** Modelled from the spec: a [SelectionState] of draft-js, an anchor point
    and a focus point. *)
Record Selection := {
  anchorKey : string;
  anchorOffset : nat;
  focusKey : string;
  focusOffset : nat
}.

(** Modelled from the spec: an [EditorState] of draft-js, the blocks in
    document order, the entities by key, the selection and the two history
    stacks. *)
Record EditorState := {
  blocks : list Block;
  entityMap : gmap string LinkEntity;
  selection : Selection;
  undoStack : list (list Block);
  redoStack : list (list Block)
}.

Definition setBlocks (st : EditorState) (bs : list Block) : EditorState :=
  {| blocks := bs; entityMap := entityMap st; selection := selection st;
     undoStack := undoStack st; redoStack := redoStack st |}.

Definition setDepth (d : Z) (b : Block) : Block :=
  {| key := key b; type := type b; text := text b;
     inlineStyleRanges := inlineStyleRanges b;
     entityRanges := entityRanges b; depth := d |}.

Definition setInlineStyleRanges (rs : list StyleRange) (b : Block) : Block :=
  {| key := key b; type := type b; text := text b;
     inlineStyleRanges := rs;
     entityRanges := entityRanges b; depth := depth b |}.

Definition setEntityRanges (rs : list EntityRange) (b : Block) : Block :=
  {| key := key b; type := type b; text := text b;
     inlineStyleRanges := inlineStyleRanges b;
     entityRanges := rs; depth := depth b |}.

(** [ContentState.getBlockForKey]: the first block carrying the key, or
    nothing ([undefined]) when no block does. *)
Fixpoint getBlockForKey (bs : list Block) (k : string) : option Block :=
  match bs with
  | [] => None
  | b :: bs' => if String.eqb (key b) k then Some b else getBlockForKey bs' k
  end.

(** Position of the block carrying a key in document order. *)
Fixpoint indexOfKey (bs : list Block) (k : string) : option nat :=
  match bs with
  | [] => None
  | b :: bs' =>
      if String.eqb (key b) k then Some 0
      else match indexOfKey bs' k with
           | Some i => Some (S i)
           | None => None
           end
  end.

(** ** The selection, resolved against the blocks

    Modelled from the spec: the start and end of a [SelectionState] and the
    blocks and characters it holds, as draft-js resolves them.

    A point is a block index and an offset.  The bounds of a selection are
    its two points in document order (the anchor comes after the focus when
    the user selected backwards). *)

Definition Point : Type := nat * nat.
Definition Bounds : Type := Point * Point.

Definition pointLe (p q : Point) : bool :=
  (p.1 <? q.1) || ((p.1 =? q.1) && (p.2 <=? q.2)).

Definition selectionBounds (st : EditorState) : option Bounds :=
  let sel := selection st in
  match indexOfKey (blocks st) (anchorKey sel),
        indexOfKey (blocks st) (focusKey sel) with
  | Some ia, Some ifo =>
      let a := (ia, anchorOffset sel) in
      let f := (ifo, focusOffset sel) in
      Some (if pointLe a f then (a, f) else (f, a))
  | _, _ => None
  end.

(** The blocks a selection intersects: those from the start block to the
    end block. *)
Definition blockSelected (bd : Bounds) (i : nat) : bool :=
  (bd.1.1 <=? i) && (i <=? bd.2.1).

(** The offsets of block [i] (of text length [n]) that lie in the
    selection: from the start offset in the first block, up to the end
    offset in the last one, and never beyond the text. *)
Definition blockRange (bd : Bounds) (i n : nat) : nat * nat :=
  (if i =? bd.1.1 then bd.1.2 else 0,
   if i =? bd.2.1 then Nat.min bd.2.2 n else n).

Definition inRange (r : nat * nat) (p : nat) : bool :=
  (r.1 <=? p) && (p <? r.2).

(** Character [p] of block [i] is selected. *)
Definition charSelected (bd : Bounds) (i : nat) (b : Block) (p : nat) : bool :=
  blockSelected bd i && inRange (blockRange bd i (String.length (text b))) p.

(** Apply [f] to every block the selection intersects, handing it the
    selected offsets of that block. *)
Definition mapSelected (f : nat * nat -> Block -> Block) (bd : Bounds)
    (bs : list Block) : list Block :=
  imap (fun i b =>
          if blockSelected bd i
          then f (blockRange bd i (String.length (text b))) b
          else b) bs.

(** Whether [P i b] holds of every block [b], [i] being its index (counted
    from [i0]). *)
Fixpoint allFrom (P : nat -> Block -> bool) (i0 : nat) (bs : list Block) : bool :=
  match bs with
  | [] => true
  | b :: bs' => P i0 b && allFrom P (S i0) bs'
  end.

(** Whether [P] holds of every block the selection intersects. *)
Definition allSelected (P : Block -> bool) (bd : Bounds) (bs : list Block) : bool :=
  allFrom (fun i b => negb (blockSelected bd i) || P b) 0 bs.

Definition isCollapsed (bd : Bounds) : bool :=
  (bd.1.1 =? bd.2.1) && (bd.1.2 =? bd.2.2).

(** ** Ranges

    Modelled from the spec: inline style ranges and entity ranges, half open
    and labelled; the ranges of one label do not overlap. *)

(** Whether some range labelled [a] covers offset [p]. *)
Definition covers {A} `{EqDecision A} (rs : list (A * nat * nat)) (a : A)
    (p : nat) : bool :=
  existsb (fun r => bool_decide (r.1.1 = a) && inRange (r.1.2, r.2) p) rs.

(** What is left of a range once the offsets of [cut] are taken out of it:
    the part before the cut and the part after it, when not empty. *)
Definition cutRange {A} (cut : nat * nat) (r : A * nat * nat)
    : list (A * nat * nat) :=
  let '(a, s, e) := r in
  (if s <? Nat.min e cut.1 then [(a, s, Nat.min e cut.1)] else []) ++
  (if Nat.max s cut.2 <? e then [(a, Nat.max s cut.2, e)] else []).

(** Take the offsets of [cut] out of every range labelled [a]. *)
Definition removeLabel {A} `{EqDecision A} (a : A) (cut : nat * nat)
    (rs : list (A * nat * nat)) : list (A * nat * nat) :=
  flat_map (fun r => if bool_decide (r.1.1 = a) then cutRange cut r else [r]) rs.

(** Label the offsets of [cut] with [a], keeping the ranges of [a] disjoint. *)
Definition addLabel {A} `{EqDecision A} (a : A) (cut : nat * nat)
    (rs : list (A * nat * nat)) : list (A * nat * nat) :=
  removeLabel a cut rs ++ [(a, cut.1, cut.2)].

Definition carries (b : Block) (s : InlineStyle) (p : nat) : bool :=
  covers (inlineStyleRanges b) s p.

(** ** Block types

    Modelled from the spec: the heading types and the list types among the
    block types. *)

Definition isHeading (t : BlockType) : bool :=
  String.eqb t "header-one" || String.eqb t "header-two" ||
  String.eqb t "header-three".

Definition isListItem (t : BlockType) : bool :=
  String.eqb t "unordered-list-item" || String.eqb t "ordered-list-item".

(** ** [./Helper]: the style commands

    Modelled from the spec: the module [./Helper] is not among the sources;
    its four commands and what they are built from follow section 4.1 of
    the specification.  A command returns the editor state that the source
    hands to [setEditorState]. *)

Module Helper.

(** Whether every offset of [r] in block [b] carries style [s]. *)
Definition rangeCarries (s : InlineStyle) (r : nat * nat) (b : Block) : bool :=
  forallb (carries b s) (seq r.1 (r.2 - r.1)).

(** Whether every selected character carries style [s]. *)
Definition selectionCarries (s : InlineStyle) (bd : Bounds) (bs : list Block)
    : bool :=
  allFrom (fun i b =>
             negb (blockSelected bd i) ||
             rangeCarries s (blockRange bd i (String.length (text b))) b) 0 bs.

(** Add style [s] to the offsets of [r] ([on]) or take it away from them. *)
Definition restyle (on : bool) (s : InlineStyle) (r : nat * nat) (b : Block)
    : Block :=
  if r.1 <? r.2
  then setInlineStyleRanges
         ((if on then addLabel s r else removeLabel s r) (inlineStyleRanges b)) b
  else b.

(** Modelled from the spec: [applyInlineStyle] of [./Helper], which is not
    among the sources.  It toggles [s] over the selection: when the entire
    selection already carries [s] the style is removed from it, otherwise
    it is added to it; other styles and the entities are left alone; a
    collapsed selection changes nothing. *)
Definition applyInlineStyle (st : EditorState) (s : InlineStyle) : EditorState :=
  match selectionBounds st with
  | None => st
  | Some bd =>
      if isCollapsed bd then st
      else
        let on := negb (selectionCarries s bd (blocks st)) in
        setBlocks st (mapSelected (restyle on s) bd (blocks st))
  end.

(** Give a block the type [t].  Switching to a list type from a type that
    is not a list type resets the depth. *)
Definition retype (t : BlockType) (b : Block) : Block :=
  {| key := key b; type := t; text := text b;
     inlineStyleRanges := inlineStyleRanges b;
     entityRanges := entityRanges b;
     depth := if isListItem t && negb (isListItem (type b))
              then 0%Z else depth b |}.

(** The type the selected blocks get when [t] is requested. *)
Definition nextType (bd : Bounds) (bs : list Block) (t : BlockType) : BlockType :=
  if allSelected (fun b => String.eqb (type b) t) bd bs && negb (isHeading t)
  then "paragraph" else t.

(** Modelled from the spec: [applyBlockStyle] of [./Helper], which is not
    among the sources.  It sets the type of every block the selection
    intersects to [t]; when these blocks already have exactly that type
    they are reset to [paragraph], unless [t] is a heading type. *)
Definition applyBlockStyle (st : EditorState) (t : BlockType) : EditorState :=
  match selectionBounds st with
  | None => st
  | Some bd =>
      setBlocks st
        (mapSelected (fun _ => retype (nextType bd (blocks st) t)) bd (blocks st))
  end.

Definition lineBreak : string := String (Ascii.ascii_of_nat 10) EmptyString.

(** The selected text: the selected part of every block the selection
    intersects, one line per block. *)
Definition selectedText (bd : Bounds) (bs : list Block) : string :=
  String.concat lineBreak
    (omap id
       (imap (fun i b =>
                if blockSelected bd i
                then let r := blockRange bd i (String.length (text b)) in
                     Some (String.substring r.1 (r.2 - r.1) (text b))
                else None) bs)).

(** Attach entity [k] to the offsets of [r], replacing what was attached
    to them. *)
Definition relink (k : string) (r : nat * nat) (b : Block) : Block :=
  if r.1 <? r.2
  then setEntityRanges
         (flat_map (cutRange r) (entityRanges b) ++ [(k, r.1, r.2)]) b
  else b.

(** Modelled from the spec: [addLink] of [./Helper], which is not among the
    sources.  With an empty url it changes nothing; otherwise it wraps the
    selection in a new link entity carrying the url and the selected text,
    replacing the entities that overlapped the selection. *)
Definition addLink (st : EditorState) (u : string) : EditorState :=
  if String.eqb u "" then st
  else
    match selectionBounds st with
    | None => st
    | Some bd =>
        let k : string := fresh (dom (entityMap st)) in
        let e := {| url := u; linkText := selectedText bd (blocks st) |} in
        {| blocks := mapSelected (relink k) bd (blocks st);
           entityMap := <[k := e]> (entityMap st);
           selection := selection st;
           undoStack := undoStack st;
           redoStack := redoStack st |}
    end.

(** Whether an entity range shares an offset with [r]. *)
Definition intersects (r : nat * nat) (e : EntityRange) : bool :=
  (Nat.max r.1 e.1.2 <? Nat.min r.2 e.2).

Definition unlink (r : nat * nat) (b : Block) : Block :=
  setEntityRanges
    (List.filter (fun e => negb (intersects r e)) (entityRanges b)) b.

(** Modelled from the spec: [removeLink] of [./Helper], which is not among
    the sources.  It removes the entity ranges that intersect the
    selection. *)
Definition removeLink (st : EditorState) : EditorState :=
  match selectionBounds st with
  | None => st
  | Some bd => setBlocks st (mapSelected unlink bd (blocks st))
  end.

End Helper.

(** ** draft-js: [RichUtils] and [EditorState]

    Modelled from the spec: the functions of draft-js that the
    specification describes. *)

Record KeyboardEvent := { shiftKey : bool; eventKey : string }.

Module RichUtils.

Definition clamp (maxDepth d : Z) : Z := Z.max 0 (Z.min d maxDepth).

(** The depth after one step of indentation. *)
Definition adjustDepth (shift : bool) (maxDepth d : Z) : Z :=
  clamp maxDepth (if shift then d - 1 else d + 1)%Z.

(** Modelled from the spec: [RichUtils.onTab] of draft-js ([adjustIndent]
    in the specification).  It applies only when the blocks of the
    selection are list items; it then moves their depth by one, down with
    the shift key and up without it, clamped to [0, maxDepth].  Otherwise
    it changes nothing. *)
Definition onTab (e : KeyboardEvent) (st : EditorState) (maxDepth : Z)
    : EditorState :=
  match selectionBounds st with
  | None => st
  | Some bd =>
      if allSelected (fun b => isListItem (type b)) bd (blocks st)
      then setBlocks st
             (mapSelected
                (fun _ b => setDepth (adjustDepth (shiftKey e) maxDepth (depth b)) b)
                bd (blocks st))
      else st
  end.

(** A range after one character was inserted at offset [p]. *)
Definition shiftRange {A} (p : nat) (r : A * nat * nat) : A * nat * nat :=
  (r.1.1, if p <=? r.1.2 then S r.1.2 else r.1.2, if p <? r.2 then S r.2 else r.2).

(** The block with a line break inserted at offset [p]. *)
Definition breakLine (p : nat) (b : Block) : Block :=
  {| key := key b; type := type b;
     text := String.substring 0 p (text b) +:+ Helper.lineBreak +:+
             String.substring p (String.length (text b) - p) (text b);
     inlineStyleRanges := shiftRange p <$> inlineStyleRanges b;
     entityRanges := shiftRange p <$> entityRanges b;
     depth := depth b |}.

(** Modelled from the spec: [RichUtils.insertSoftNewline] of draft-js.  It
    inserts a line-break character into the text of the current block, at
    the start of the selection, and puts the caret behind it; no block is
    created. *)
Definition insertSoftNewline (st : EditorState) : EditorState :=
  match selectionBounds st with
  | None => st
  | Some bd =>
      {| blocks := imap (fun i b => if i =? bd.1.1 then breakLine bd.1.2 b else b)
                        (blocks st);
         entityMap := entityMap st;
         selection :=
           match blocks st !! bd.1.1 with
           | Some b => {| anchorKey := key b; anchorOffset := S bd.1.2;
                          focusKey := key b; focusOffset := S bd.1.2 |}
           | None => selection st
           end;
         undoStack := undoStack st;
         redoStack := redoStack st |}
  end.

End RichUtils.

Definition allStyles : list InlineStyle := [BOLD; ITALIC; UNDERLINE; STRIKETHROUGH].

(** Whether the entire selection carries style [s]. *)
Definition selectionStyledb (st : EditorState) (s : InlineStyle) : bool :=
  match selectionBounds st with
  | Some bd => Helper.selectionCarries s bd (blocks st)
  | None => true
  end.

Module Draft.

(** Modelled from the spec: [EditorState.getCurrentInlineStyle] of draft-js
    ([queryActiveStyles] in the specification).  The current inline style
    is the intersection of the styles of the selected characters: the set
    of the styles that cover every character of the selection. *)
Definition getCurrentInlineStyle (st : EditorState) : list InlineStyle :=
  List.filter (selectionStyledb st) allStyles.

End Draft.

(** [OrderedSet.has] on the current inline style. *)
Definition has (styles : list InlineStyle) (s : InlineStyle) : bool :=
  existsb (fun s' => bool_decide (s' = s)) styles.

(** ** The component: [TextEditor] *)

Inductive DraftHandleValue := handled | not_handled.

(** The properties of the component.  [handleContentUpdate], the callback
    of the host, is not a field: an effect returns the arguments of the
    calls it makes to it, in order. *)
Record ITextEditor := {
  initialContent : option string;
  contentType : string
}.

Record IDropdownOption := { optionKey : string; optionText : string }.

(** The React state of the component. *)
Record TextEditorState := {
  editorState : EditorState;
  selectedHeading : string;
  isBoldActive : bool;
  isItalicActive : bool;
  isUnderlineActive : bool;
  isOrderedListActive : bool;
  isUnorderedListActive : bool;
  isStrikeThroughActive : bool;
  isBlockquoteActive : bool;
  isCodeBlockActive : bool;
  urlValue : string;
  isUrlInputVisible : bool
}.

Definition setEditorState (st : EditorState) (c : TextEditorState) : TextEditorState :=
  {| editorState := st; selectedHeading := selectedHeading c;
     isBoldActive := isBoldActive c; isItalicActive := isItalicActive c;
     isUnderlineActive := isUnderlineActive c;
     isOrderedListActive := isOrderedListActive c;
     isUnorderedListActive := isUnorderedListActive c;
     isStrikeThroughActive := isStrikeThroughActive c;
     isBlockquoteActive := isBlockquoteActive c;
     isCodeBlockActive := isCodeBlockActive c;
     urlValue := urlValue c; isUrlInputVisible := isUrlInputVisible c |}.

Definition setSelectedHeading (h : string) (c : TextEditorState) : TextEditorState :=
  {| editorState := editorState c; selectedHeading := h;
     isBoldActive := isBoldActive c; isItalicActive := isItalicActive c;
     isUnderlineActive := isUnderlineActive c;
     isOrderedListActive := isOrderedListActive c;
     isUnorderedListActive := isUnorderedListActive c;
     isStrikeThroughActive := isStrikeThroughActive c;
     isBlockquoteActive := isBlockquoteActive c;
     isCodeBlockActive := isCodeBlockActive c;
     urlValue := urlValue c; isUrlInputVisible := isUrlInputVisible c |}.

Definition setUrlValue (u : string) (c : TextEditorState) : TextEditorState :=
  {| editorState := editorState c; selectedHeading := selectedHeading c;
     isBoldActive := isBoldActive c; isItalicActive := isItalicActive c;
     isUnderlineActive := isUnderlineActive c;
     isOrderedListActive := isOrderedListActive c;
     isUnorderedListActive := isUnorderedListActive c;
     isStrikeThroughActive := isStrikeThroughActive c;
     isBlockquoteActive := isBlockquoteActive c;
     isCodeBlockActive := isCodeBlockActive c;
     urlValue := u; isUrlInputVisible := isUrlInputVisible c |}.

Definition setIsUrlInputVisible (v : bool) (c : TextEditorState) : TextEditorState :=
  {| editorState := editorState c; selectedHeading := selectedHeading c;
     isBoldActive := isBoldActive c; isItalicActive := isItalicActive c;
     isUnderlineActive := isUnderlineActive c;
     isOrderedListActive := isOrderedListActive c;
     isUnorderedListActive := isUnorderedListActive c;
     isStrikeThroughActive := isStrikeThroughActive c;
     isBlockquoteActive := isBlockquoteActive c;
     isCodeBlockActive := isCodeBlockActive c;
     urlValue := urlValue c; isUrlInputVisible := v |}.

(** The maximum allowed indent level for lists. *)
Definition maxIntend : Z := 4.

(** A string in a condition: [undefined] and the empty string are falsy. *)
Definition truthy (o : option string) : bool :=
  match o with
  | Some s => negb (String.eqb s "")
  | None => false
  end.

(** Where the editor state of a fresh component comes from. *)
Inductive InitialSource :=
  | fromMarkdown (content : string)
  | fromHtml (content : string)
  | fromEmpty.

Definition initialSource (props : ITextEditor) : InitialSource :=
  let content := initialContent props in
  if truthy content && String.eqb (contentType props) "markdown"
  then fromMarkdown (default "" content)
  else if truthy content && String.eqb (contentType props) "html"
  then fromHtml (default "" content)
  else fromEmpty.

Section TextEditor.

(** What the component imports from [./Parser], [./Helper] and draft-js.
    None of it is defined in the component; the handlers are parametric
    in it. *)
Variable getEditorStateFromMarkdown : string -> EditorState.
Variable getEditorStateFromHtml : string -> EditorState.
Variable exportEditorStateToMarkdownString : EditorState -> string.
Variable exportEditorStateToHtmlString : EditorState -> string.
Variable applyInlineStyle : EditorState -> InlineStyle -> EditorState.
Variable applyBlockStyle : EditorState -> BlockType -> EditorState.
Variable addLink : EditorState -> string -> EditorState.
Variable removeLink : EditorState -> EditorState.
Variable RichUtils_handleKeyCommand : EditorState -> string -> option EditorState.
Variable RichUtils_insertSoftNewline : EditorState -> EditorState.
Variable RichUtils_onTab : KeyboardEvent -> EditorState -> Z -> EditorState.
Variable EditorState_createEmpty : EditorState.
Variable EditorState_undo : EditorState -> EditorState.
Variable EditorState_redo : EditorState -> EditorState.
Variable EditorState_getCurrentInlineStyle : EditorState -> list InlineStyle.

(** The argument of [useState] for the editor state. *)
Definition initialEditorState (props : ITextEditor) : EditorState :=
  match initialSource props with
  | fromMarkdown s => getEditorStateFromMarkdown s
  | fromHtml s => getEditorStateFromHtml s
  | fromEmpty => EditorState_createEmpty
  end.

Definition initialState (props : ITextEditor) : TextEditorState :=
  {| editorState := initialEditorState props; selectedHeading := "paragraph";
     isBoldActive := false; isItalicActive := false;
     isUnderlineActive := false; isOrderedListActive := false;
     isUnorderedListActive := false; isStrikeThroughActive := false;
     isBlockquoteActive := false; isCodeBlockActive := false;
     urlValue := ""; isUrlInputVisible := false |}.

(** The effect on [editorState] and [props]: the calls it makes to
    [props.handleContentUpdate]. *)
Definition contentUpdateEffect (props : ITextEditor) (st : EditorState)
    : list string :=
  let newContent :=
    if String.eqb (contentType props) "markdown"
    then exportEditorStateToMarkdownString st
    else if String.eqb (contentType props) "html"
    then exportEditorStateToHtmlString st
    else "" in
  [newContent].

Definition handleKeyCommand (command : string) (st : EditorState)
    (c : TextEditorState) : DraftHandleValue * TextEditorState :=
  if String.eqb command "backspace" then (not_handled, c)
  else match RichUtils_handleKeyCommand st command with
       | Some newState => (handled, setEditorState newState c)
       | None => (not_handled, c)
       end.

Definition handleReturn (event : KeyboardEvent) (c : TextEditorState)
    : DraftHandleValue * TextEditorState :=
  if shiftKey event
  then (handled, setEditorState (RichUtils_insertSoftNewline (editorState c)) c)
  else (not_handled, c).

Definition onTab (event : KeyboardEvent) (c : TextEditorState) : TextEditorState :=
  setEditorState (RichUtils_onTab event (editorState c) maxIntend) c.

Definition onBoldMouseDown (c : TextEditorState) : TextEditorState :=
  setEditorState (applyInlineStyle (editorState c) BOLD) c.

Definition onItalicMouseDown (c : TextEditorState) : TextEditorState :=
  setEditorState (applyInlineStyle (editorState c) ITALIC) c.

Definition onUnderlineMouseDown (c : TextEditorState) : TextEditorState :=
  setEditorState (applyInlineStyle (editorState c) UNDERLINE) c.

Definition onStrikeThroughMouseDown (c : TextEditorState) : TextEditorState :=
  setEditorState (applyInlineStyle (editorState c) STRIKETHROUGH) c.

Definition onHeadingChange (option : option IDropdownOption)
    (c : TextEditorState) : TextEditorState :=
  match option with
  | None => c
  | Some o =>
      let k := optionKey o in
      if String.eqb k "paragraph" then
        setSelectedHeading k
          (setEditorState (applyBlockStyle (editorState c) "paragraph") c)
      else if String.eqb k "header-one" then
        setSelectedHeading k
          (setEditorState (applyBlockStyle (editorState c) "header-one") c)
      else if String.eqb k "header-two" then
        setSelectedHeading k
          (setEditorState (applyBlockStyle (editorState c) "header-two") c)
      else if String.eqb k "header-three" then
        setSelectedHeading k
          (setEditorState (applyBlockStyle (editorState c) "header-three") c)
      else setSelectedHeading "paragraph" c
  end.

(** The effect on [editorState] that derives the toolbar flags.  It
    fails ([None]) when no block carries the anchor key: [getType] is then
    called on [undefined]. *)
Definition activeStylesEffect (c : TextEditorState) : option TextEditorState :=
  let currentInlineStyle := EditorState_getCurrentInlineStyle (editorState c) in
  let anchor := anchorKey (selection (editorState c)) in
  match getBlockForKey (blocks (editorState c)) anchor with
  | None => None
  | Some currentContentBlock =>
      let currentBlockType := type currentContentBlock in
      Some {| editorState := editorState c;
              selectedHeading :=
                if String.eqb currentBlockType "unstyled" then "paragraph"
                else currentBlockType;
              isBoldActive := has currentInlineStyle BOLD;
              isItalicActive := has currentInlineStyle ITALIC;
              isUnderlineActive := has currentInlineStyle UNDERLINE;
              isOrderedListActive := String.eqb currentBlockType "ordered-list-item";
              isUnorderedListActive := String.eqb currentBlockType "unordered-list-item";
              isStrikeThroughActive := has currentInlineStyle STRIKETHROUGH;
              isBlockquoteActive := String.eqb currentBlockType "blockquote";
              isCodeBlockActive := String.eqb currentBlockType "code-block";
              urlValue := urlValue c;
              isUrlInputVisible := isUrlInputVisible c |}
  end.

(** What React runs once the editor state has changed: both effects list
    [editorState] among their dependencies.  The result is the calls to
    the host and the state with the derived flags. *)
Definition afterEditorStateChange (props : ITextEditor) (c : TextEditorState)
    : list string * option TextEditorState :=
  (contentUpdateEffect props (editorState c), activeStylesEffect c).

(** The link dialog. *)
Definition submitLink (c : TextEditorState) : TextEditorState :=
  setUrlValue ""
    (setIsUrlInputVisible false
       (setEditorState (addLink (editorState c) (urlValue c)) c)).

Definition onUrlKeyDown (event : KeyboardEvent) (c : TextEditorState)
    : TextEditorState :=
  if String.eqb (eventKey event) "Enter" then submitLink c else c.

Definition onUrlChange (newValue : option string) (c : TextEditorState)
    : TextEditorState :=
  match newValue with
  | Some v => setUrlValue v c
  | None => c
  end.

Definition onAddLinkClick (c : TextEditorState) : TextEditorState := submitLink c.

Definition onAbortClick (c : TextEditorState) : TextEditorState :=
  setUrlValue "" (setIsUrlInputVisible false c).

(** The toolbar buttons. *)
Definition onUnorderedListMouseDown (c : TextEditorState) : TextEditorState :=
  setEditorState (applyBlockStyle (editorState c) "unordered-list-item") c.

Definition onOrderedListMouseDown (c : TextEditorState) : TextEditorState :=
  setEditorState (applyBlockStyle (editorState c) "ordered-list-item") c.

Definition onDecreaseIndentMouseDown (c : TextEditorState) : TextEditorState :=
  let e := {| shiftKey := true; eventKey := "" |} in
  setEditorState (RichUtils_onTab e (editorState c) maxIntend) c.

Definition onIncreaseIndentMouseDown (c : TextEditorState) : TextEditorState :=
  let e := {| shiftKey := false; eventKey := "" |} in
  setEditorState (RichUtils_onTab e (editorState c) maxIntend) c.

Definition onBlockquoteMouseDown (c : TextEditorState) : TextEditorState :=
  setEditorState (applyBlockStyle (editorState c) "blockquote") c.

Definition onCodeBlockMouseDown (c : TextEditorState) : TextEditorState :=
  setEditorState (applyBlockStyle (editorState c) "code-block") c.

Definition onAddLinkMouseDown (c : TextEditorState) : TextEditorState :=
  setIsUrlInputVisible true c.

Definition onRemoveLinkMouseDown (c : TextEditorState) : TextEditorState :=
  setEditorState (removeLink (editorState c)) c.

Definition onUndoMouseDown (c : TextEditorState) : TextEditorState :=
  setEditorState (EditorState_undo (editorState c)) c.

Definition onRedoMouseDown (c : TextEditorState) : TextEditorState :=
  setEditorState (EditorState_redo (editorState c)) c.

(** Options for the heading dropdown. *)
Definition headingOptions : list IDropdownOption :=
  [ {| optionKey := "paragraph"; optionText := "Paragraph" |};
    {| optionKey := "header-one"; optionText := "Headline 1" |};
    {| optionKey := "header-two"; optionText := "Headline 2" |};
    {| optionKey := "header-three"; optionText := "Headline 3" |} ].

(** The class name that [mergeStyles] gives the blockquote style in
    [./CustomStyles]. *)
Variable customBlockQuoteStyle : string.

(** The CSS classes of a block. *)
Definition blockStyleFn (contentBlock : Block) : string :=
  if String.eqb (type contentBlock) "blockquote" then customBlockQuoteStyle
  else "".

End TextEditor.

(** ** The events of the link dialog *)

Inductive DialogEvent :=
  | addLinkMouseDown
  | urlChange (newValue : option string)
  | urlKeyDown (event : KeyboardEvent)
  | addLinkClick
  | abortClick.

Definition dialogStep (addLink : EditorState -> string -> EditorState)
    (c : TextEditorState) (ev : DialogEvent) : TextEditorState :=
  match ev with
  | addLinkMouseDown => onAddLinkMouseDown c
  | urlChange newValue => onUrlChange newValue c
  | urlKeyDown event => onUrlKeyDown addLink event c
  | addLinkClick => onAddLinkClick addLink c
  | abortClick => onAbortClick c
  end.

(** ** The application: [App]

    The application keeps the content string, the content type and the dark
    mode switch in React state, and mirrors the first two in the local
    storage of the browser.  The storage is a map from keys to strings:
    [getItem] of a key that is not there is [null]. *)

(** The key to store and load editor content from local storage. *)
Definition localStorageContentKey : string := "stored-editor-content".

(** The key to store and load the stored content type from local storage. *)
Definition localStorageContentTypeKey : string := "content-type".

Record AppState := {
  stringContent : option string;
  selectedContentType : string;
  isDarkModeEnabled : bool
}.

Definition setStringContent (v : string) (a : AppState) : AppState :=
  {| stringContent := Some v; selectedContentType := selectedContentType a;
     isDarkModeEnabled := isDarkModeEnabled a |}.

Definition setSelectedContentType (t : string) (a : AppState) : AppState :=
  {| stringContent := stringContent a; selectedContentType := t;
     isDarkModeEnabled := isDarkModeEnabled a |}.

Definition setIsDarkModeEnabled (v : bool) (a : AppState) : AppState :=
  {| stringContent := stringContent a;
     selectedContentType := selectedContentType a; isDarkModeEnabled := v |}.

(** The state of the first render. *)
Definition initialAppState : AppState :=
  {| stringContent := None; selectedContentType := "markdown";
     isDarkModeEnabled := false |}.

(** The test the application makes on a content type that comes from
    outside: [t === 'markdown' || t === 'html']. *)
Definition isContentType (t : string) : bool :=
  String.eqb t "markdown" || String.eqb t "html".

(** The effect that loads the stored content, once, after the first
    render. *)
Definition loadEffect (storage : gmap string string) (a : AppState) : AppState :=
  match storage !! localStorageContentKey with
  | Some storedContent =>
      match storage !! localStorageContentTypeKey with
      | Some storedContentType =>
          if isContentType storedContentType
          then setStringContent storedContent
                 (setSelectedContentType storedContentType a)
          else setStringContent "" a
      | None => setStringContent "" a
      end
  | None => setStringContent "" a
  end.

(** The effect that stores the content type and, when there is one, the
    content. *)
Definition storeEffect (a : AppState) (storage : gmap string string)
    : gmap string string :=
  let storage' := <[localStorageContentTypeKey := selectedContentType a]> storage in
  match stringContent a with
  | Some content => <[localStorageContentKey := content]> storage'
  | None => storage'
  end.

(** The change handler of the content type dropdown. *)
Definition onContentTypeChange (option : option IDropdownOption) (a : AppState)
    : AppState :=
  match option with
  | None => a
  | Some o =>
      if isContentType (optionKey o) then setSelectedContentType (optionKey o) a
      else a
  end.

(** The change handler of the dark mode toggle. *)
Definition onDarkModeChange (checked : option bool) (a : AppState) : AppState :=
  match checked with
  | Some true => setIsDarkModeEnabled true a
  | _ => setIsDarkModeEnabled false a
  end.

(** The callback the application hands to the editor. *)
Definition handleContentUpdate (newContent : string) (a : AppState) : AppState :=
  setStringContent newContent a.

(** The properties the application hands to the editor. *)
Definition editorProps (a : AppState) : ITextEditor :=
  {| initialContent := stringContent a; contentType := selectedContentType a |}.

Inductive AppEvent :=
  | contentTypeChange (option : option IDropdownOption)
  | darkModeChange (checked : option bool)
  | contentUpdate (newContent : string).

Definition appHandle (ev : AppEvent) (a : AppState) : AppState :=
  match ev with
  | contentTypeChange option => onContentTypeChange option a
  | darkModeChange checked => onDarkModeChange checked a
  | contentUpdate newContent => handleContentUpdate newContent a
  end.

(** What React does to the storage after a render: the storing effect
    runs when one of its dependencies, the content type and the content,
    differs from the render before. *)
Definition commit (prev next : AppState) (storage : gmap string string)
    : gmap string string :=
  if bool_decide (selectedContentType next = selectedContentType prev) &&
     bool_decide (stringContent next = stringContent prev)
  then storage
  else storeEffect next storage.

(** The first render and its effects, in the order of the source: the
    loading effect reads the storage and sets the state, the storing effect
    runs on the state of the first render, and the render that follows
    stores the loaded state. *)
Definition mount (storage : gmap string string) : AppState * gmap string string :=
  let loaded := loadEffect storage initialAppState in
  (loaded, commit initialAppState loaded (storeEffect initialAppState storage)).

Definition appStep (x : AppState * gmap string string) (ev : AppEvent)
    : AppState * gmap string string :=
  let a' := appHandle ev x.1 in (a', commit x.1 a' x.2).

Definition appRun (evs : list AppEvent) (x : AppState * gmap string string)
    : AppState * gmap string string :=
  fold_left appStep evs x.

(** The calls the editor makes to the callback, received by the
    application one after the other. *)
Definition receive (calls : list string) (a : AppState) : AppState :=
  fold_left (fun a newContent => handleContentUpdate newContent a) calls a.

(** The storage mirrors the state: it holds the content type and the
    content of the state. *)
Definition mirrors (storage : gmap string string) (a : AppState) : Prop :=
  storage !! localStorageContentTypeKey = Some (selectedContentType a) /\
  storage !! localStorageContentKey = stringContent a.


(** What every state of the application satisfies once it is mounted,
    relative to the storage [storage0] it was mounted on. *)
Definition mounted (storage0 : gmap string string)
    (x : AppState * gmap string string) : Prop :=
  is_Some (stringContent x.1) /\
  isContentType (selectedContentType x.1) = true /\
  mirrors x.2 x.1 /\
  (forall k, k <> localStorageContentTypeKey -> k <> localStorageContentKey ->
             x.2 !! k = storage0 !! k).

(** One round between the editor and the application: the editor, showing
    [st], reports its content, and the application takes the calls. *)
Definition editorRound (toMarkdown toHtml : EditorState -> string)
    (st : EditorState) (a : AppState) : AppState :=
  receive (contentUpdateEffect toMarkdown toHtml (editorProps a) st) a.

(** The editor as the application first renders it: its initial editor
    state, and the application after the first report. *)
Definition editorMount (ofMarkdown ofHtml : string -> EditorState)
    (empty : EditorState) (toMarkdown toHtml : EditorState -> string)
    (a : AppState) : EditorState * AppState :=
  let st := initialEditorState ofMarkdown ofHtml empty (editorProps a) in
  (st, editorRound toMarkdown toHtml st a).

(** The dialog events that neither submit nor abort. *)
Definition quiet (ev : DialogEvent) : bool :=
  match ev with
  | addLinkMouseDown => true
  | urlChange _ => true
  | urlKeyDown event => negb (String.eqb (eventKey event) "Enter")
  | addLinkClick => false
  | abortClick => false
  end.

Definition dialogRun (addLink : EditorState -> string -> EditorState)
    (evs : list DialogEvent) (c : TextEditorState) : TextEditorState :=
  fold_left (dialogStep addLink) evs c.

(** The calls the callback of the application receives once the editor
    state has become [st].  The effect of the editor runs for the change
    and reports; when the report changes the content of the application,
    the application renders again and hands the editor new props, which
    are among the dependencies of the effect, so the effect runs again;
    a report that leaves the content as it is causes no render.  [fuel]
    bounds the number of runs. *)
Fixpoint reportLoop (toMarkdown toHtml : EditorState -> string) (fuel : nat)
    (st : EditorState) (a : AppState) : list string :=
  match fuel with
  | 0 => []
  | S fuel' =>
      let calls := contentUpdateEffect toMarkdown toHtml (editorProps a) st in
      let a1 := receive calls a in
      calls ++
      (if bool_decide (stringContent a1 = stringContent a) then []
       else reportLoop toMarkdown toHtml fuel' st a1)
  end.

(** The application once the editor it renders has started and reported:
    the editor starts from the content of the application, and its reports
    arrive as content updates. *)
Definition firstReport (ofMarkdown ofHtml : string -> EditorState)
    (empty : EditorState) (toMarkdown toHtml : EditorState -> string)
    (x : AppState * gmap string string) : AppState * gmap string string :=
  let st := initialEditorState ofMarkdown ofHtml empty (editorProps x.1) in
  appRun (contentUpdate <$> reportLoop toMarkdown toHtml 2 st x.1) x.

(** * Vocabulary of the properties *)

Definition countTrue (l : list bool) : nat := List.length (List.filter id l).

(** The three conditions under which a component starts from imported
    content. *)
Definition importsAs (props : ITextEditor) (format s : string) : Prop :=
  initialContent props = Some s /\ s <> "" /\ contentType props = format.

(** The flags of the four block buttons, in the order of the toolbar. *)
Definition blockFlags (c : TextEditorState) : list bool :=
  [isUnorderedListActive c; isOrderedListActive c;
   isBlockquoteActive c; isCodeBlockActive c].

(** The flags derived by comparing one block type with the four literals. *)
Definition flagsOfType (t : BlockType) : list bool :=
  [String.eqb t "unordered-list-item"; String.eqb t "ordered-list-item";
   String.eqb t "blockquote"; String.eqb t "code-block"].

(** Every block has a depth between 0 and the maximum indent. *)
Definition depthsInRange (st : EditorState) : Prop :=
  Forall (fun b => (0 <= depth b <= maxIntend)%Z) (blocks st).

(** Every selected block is at depth [d]. *)
Definition selectionAtDepth (st : EditorState) (d : Z) : Prop :=
  forall bd i b,
    selectionBounds st = Some bd -> blocks st !! i = Some b ->
    blockSelected bd i = true -> depth b = d.

(** Some selected block is not a list item. *)
Definition selectionOffList (st : EditorState) : Prop :=
  exists bd i b,
    selectionBounds st = Some bd /\ blocks st !! i = Some b /\
    blockSelected bd i = true /\ isListItem (type b) = false.

(** The ways the user changes the indentation: the tab key, with or without
    shift, and the two toolbar buttons. *)
Inductive IndentOp :=
  | tabKey (event : KeyboardEvent)
  | increaseButton
  | decreaseButton.

Definition indentStep (c : TextEditorState) (op : IndentOp) : TextEditorState :=
  match op with
  | tabKey event => onTab RichUtils.onTab event c
  | increaseButton => onIncreaseIndentMouseDown RichUtils.onTab c
  | decreaseButton => onDecreaseIndentMouseDown RichUtils.onTab c
  end.

Definition indentRun (ops : list IndentOp) (c : TextEditorState) : TextEditorState :=
  fold_left indentStep ops c.

(** Every block the selection intersects has type [t]. *)
Definition selectionHasType (st : EditorState) (t : BlockType) : Prop :=
  forall bd i b,
    selectionBounds st = Some bd -> blocks st !! i = Some b ->
    blockSelected bd i = true -> type b = t.

(** Whether character [p] of block [i] carries style [s]. *)
Definition styleAt (st : EditorState) (i : nat) (s : InlineStyle) (p : nat) : bool :=
  match blocks st !! i with
  | Some b => carries b s p
  | None => false
  end.

(** Whether character [p] of block [i] lies in the selection. *)
Definition selectedAt (st : EditorState) (i p : nat) : bool :=
  match selectionBounds st, blocks st !! i with
  | Some bd, Some b => charSelected bd i b p
  | _, _ => false
  end.

(** The entire selection carries style [s]. *)
Definition selectionStyled (st : EditorState) (s : InlineStyle) : Prop :=
  forall i p, selectedAt st i p = true -> styleAt st i s p = true.

(** No character of the selection carries style [s]. *)
Definition selectionUnstyled (st : EditorState) (s : InlineStyle) : Prop :=
  forall i p, selectedAt st i p = true -> styleAt st i s p = false.

(** The flag the toolbar keeps for an inline style. *)
Definition inlineFlag (c : TextEditorState) (s : InlineStyle) : bool :=
  match s with
  | BOLD => isBoldActive c
  | ITALIC => isItalicActive c
  | UNDERLINE => isUnderlineActive c
  | STRIKETHROUGH => isStrikeThroughActive c
  end.

(** ** Sample documents *)

Definition sampleBlock (k : string) (t : BlockType) (txt : string)
    (styles : list StyleRange) (d : Z) : Block :=
  {| key := k; type := t; text := txt; inlineStyleRanges := styles;
     entityRanges := []; depth := d |}.

(** A document with the selection running from offset [from] to offset
    [to] of the block with key [k]. *)
Definition sampleState (bs : list Block) (k : string) (from to : nat) : EditorState :=
  {| blocks := bs; entityMap := ∅;
     selection := {| anchorKey := k; anchorOffset := from;
                     focusKey := k; focusOffset := to |};
     undoStack := []; redoStack := [] |}.

Definition sampleComponent (st : EditorState) : TextEditorState :=
  {| editorState := st; selectedHeading := "paragraph";
     isBoldActive := false; isItalicActive := false;
     isUnderlineActive := false; isOrderedListActive := false;
     isUnorderedListActive := false; isStrikeThroughActive := false;
     isBlockquoteActive := false; isCodeBlockActive := false;
     urlValue := ""; isUrlInputVisible := false |}.

(** A quotation followed by a paragraph, the quotation selected. *)
Definition quoteState : EditorState :=
  sampleState [sampleBlock "a" "blockquote" "ab" [] 0;
               sampleBlock "b" "paragraph" "cdef" [] 0] "a" 0 2.

(** The text "ab" selected, its first letter bold. *)
Definition halfBoldState : EditorState :=
  sampleState [sampleBlock "a" "paragraph" "ab" [(BOLD, 0, 1)] 0] "a" 0 2.

(** The text "hello" selected, without any style. *)
Definition helloState : EditorState :=
  sampleState [sampleBlock "a" "paragraph" "hello" [] 0] "a" 0 5.

(** A list item at depth 2 with the caret in it. *)
Definition listState : EditorState :=
  sampleState [sampleBlock "a" "unordered-list-item" "item" [] 2] "a" 1 1.

(** A storage that holds an HTML content. *)
Definition htmlStorage : gmap string string :=
  <[localStorageContentTypeKey := "html"]>
    (<[localStorageContentKey := "<p>hello</p>"]>
       (<["other" := "kept"]> ∅)).

(** A storage that holds a content and no content type. *)
Definition untypedStorage : gmap string string :=
  <[localStorageContentKey := "hello"]> ∅.

(** A stand-in for an import: one paragraph holding the string. *)
Definition sampleImport (content : string) : EditorState :=
  sampleState [sampleBlock "a" "unstyled" content [] 0] "a" 0 0.

(** A stand-in for an export: the text of the blocks, with a prefix. *)
Definition sampleExport (prefix : string) (st : EditorState) : string :=
  prefix +:+ String.concat Helper.lineBreak (text <$> blocks st).

(** * Properties *)

(** ** Key commands *)

(** C6: a [backspace] key command is reported as not handled, whatever the
    editor state (so in particular with the caret at the start of the
    document): the component state is left as it was, and the outcome does
    not depend on the command handling of [RichUtils], which is not
    consulted. *)
Theorem handleKeyCommand_backspace_not_handled
    (lib lib' : EditorState -> string -> option EditorState)
    (st : EditorState) (c : TextEditorState) :
  handleKeyCommand lib "backspace" st c = (not_handled, c) /\
  handleKeyCommand lib "backspace" st c = handleKeyCommand lib' "backspace" st c.
Proof. split; reflexivity. Qed.

(** Every other command is delegated. *)
Lemma handleKeyCommand_delegates lib command st c :
  command <> "backspace" ->
  handleKeyCommand lib command st c =
    match lib st command with
    | Some newState => (handled, setEditorState newState c)
    | None => (not_handled, c)
    end.
Proof.
  intros Hne. unfold handleKeyCommand.
  destruct (String.eqb_spec command "backspace"); [contradiction | reflexivity].
Qed.

(** ** The host callback *)

(** One run of the effect calls [handleContentUpdate] once, with the
    Markdown export of the state when the content type is [markdown] and
    with its HTML export when the content type is [html]. *)
Lemma contentUpdateEffect_run
    (toMarkdown toHtml : EditorState -> string)
    (getStyle : EditorState -> list InlineStyle)
    (content : option string) (c : TextEditorState) :
  let md := {| initialContent := content; contentType := "markdown" |} in
  let html := {| initialContent := content; contentType := "html" |} in
  contentUpdateEffect toMarkdown toHtml md (editorState c)
    = [toMarkdown (editorState c)] /\
  contentUpdateEffect toMarkdown toHtml html (editorState c)
    = [toHtml (editorState c)] /\
  fst (afterEditorStateChange toMarkdown toHtml getStyle md c)
    = [toMarkdown (editorState c)] /\
  fst (afterEditorStateChange toMarkdown toHtml getStyle html c)
    = [toHtml (editorState c)].
Proof. repeat split. Qed.

(** Whatever the content type, one call is made. *)
Lemma contentUpdateEffect_once toMarkdown toHtml props st :
  List.length (contentUpdateEffect toMarkdown toHtml props st) = 1.
Proof. reflexivity. Qed.

(** ** The initial editor state *)

Lemma initialSource_markdown props s :
  initialSource props = fromMarkdown s <-> importsAs props "markdown" s.
Proof.
  unfold initialSource, importsAs.
  destruct (initialContent props) as [s'|]; simpl.
  - destruct (String.eqb_spec s' ""); simpl.
    + split; [discriminate | intros (H & ? & _); congruence].
    + destruct (String.eqb_spec (contentType props) "markdown") as [E|E].
      * split; [intros [= ->]; done | intros (H & _); congruence].
      * destruct (String.eqb (contentType props) "html");
          (split; [discriminate | intros (_ & _ & ?); contradiction]).
  - split; [discriminate | intros (? & _); discriminate].
Qed.

Lemma initialSource_html props s :
  initialSource props = fromHtml s <-> importsAs props "html" s.
Proof.
  unfold initialSource, importsAs.
  destruct (initialContent props) as [s'|]; simpl.
  - destruct (String.eqb_spec s' ""); simpl.
    + split; [discriminate | intros (H & ? & _); congruence].
    + destruct (String.eqb_spec (contentType props) "markdown") as [E|E].
      * split; [discriminate | intros (_ & _ & E'); rewrite E in E'; discriminate].
      * destruct (String.eqb_spec (contentType props) "html") as [E'|E'].
        -- split; [intros [= ->]; done | intros (H & _); congruence].
        -- split; [discriminate | intros (_ & _ & ?); contradiction].
  - split; [discriminate | intros (? & _); discriminate].
Qed.

Lemma initialSource_empty props :
  initialSource props = fromEmpty <->
  (forall s, ~ importsAs props "markdown" s) /\
  (forall s, ~ importsAs props "html" s).
Proof.
  split.
  - intros H. split; intros s Hs.
    + apply initialSource_markdown in Hs. congruence.
    + apply initialSource_html in Hs. congruence.
  - intros [Hm Hh]. destruct (initialSource props) as [s|s|] eqn:E; [| |done].
    + apply initialSource_markdown in E. destruct (Hm _ E).
    + apply initialSource_html in E. destruct (Hh _ E).
Qed.

(** C9: the editor state of a fresh component comes from the Markdown import
    exactly when the initial content is a non-empty string and the content
    type is [markdown], from the HTML import exactly when it is a non-empty
    string and the content type is [html], and is the empty state in every
    other case; an empty initial content is never imported. *)
Theorem initialEditorState_source
    (ofMarkdown ofHtml : string -> EditorState) (empty : EditorState)
    (props : ITextEditor) :
  (forall s, initialSource props = fromMarkdown s <-> importsAs props "markdown" s) /\
  (forall s, initialSource props = fromHtml s <-> importsAs props "html" s) /\
  (initialSource props = fromEmpty <->
     (forall s, ~ importsAs props "markdown" s) /\
     (forall s, ~ importsAs props "html" s)) /\
  initialEditorState ofMarkdown ofHtml empty props =
    match initialSource props with
    | fromMarkdown s => ofMarkdown s
    | fromHtml s => ofHtml s
    | fromEmpty => empty
    end /\
  (forall format,
     initialSource {| initialContent := Some ""; contentType := format |} = fromEmpty /\
     initialSource {| initialContent := None; contentType := format |} = fromEmpty).
Proof.
  split; [apply initialSource_markdown |].
  split; [apply initialSource_html |].
  split; [apply initialSource_empty |].
  split; [reflexivity |].
  intros format. split; reflexivity.
Qed.

(** ** The toolbar flags *)

Lemma flagsOfType_exclusive t : countTrue (flagsOfType t) <= 1.
Proof.
  unfold flagsOfType, countTrue.
  destruct (String.eqb_spec t "unordered-list-item") as [->|_]; [simpl; lia |].
  destruct (String.eqb_spec t "ordered-list-item") as [->|_]; [simpl; lia |].
  destruct (String.eqb_spec t "blockquote") as [->|_]; [simpl; lia |].
  destruct (String.eqb t "code-block"); simpl; lia.
Qed.

Lemma activeStylesEffect_anchor getStyle c b :
  getBlockForKey (blocks (editorState c))
    (anchorKey (selection (editorState c))) = Some b ->
  exists c',
    activeStylesEffect getStyle c = Some c' /\
    editorState c' = editorState c /\
    blockFlags c' = flagsOfType (type b) /\
    selectedHeading c' =
      (if String.eqb (type b) "unstyled" then "paragraph" else type b) /\
    isBoldActive c' = has (getStyle (editorState c)) BOLD /\
    isItalicActive c' = has (getStyle (editorState c)) ITALIC /\
    isUnderlineActive c' = has (getStyle (editorState c)) UNDERLINE /\
    isStrikeThroughActive c' = has (getStyle (editorState c)) STRIKETHROUGH.
Proof.
  intros Hb. unfold activeStylesEffect. rewrite Hb.
  eexists. split; [reflexivity |]. repeat split.
Qed.

(** C10: once the flags have been derived from an editor state, at most one
    of the four block flags (unordered list, ordered list, blockquote, code
    block) is set, each being the comparison of the type of the anchor
    block with one literal, and the heading selection is that type, with
    [unstyled] shown as [paragraph]. *)
Theorem activeStylesEffect_block_flags
    (getStyle : EditorState -> list InlineStyle) (c : TextEditorState) (b : Block) :
  getBlockForKey (blocks (editorState c))
    (anchorKey (selection (editorState c))) = Some b ->
  exists c',
    activeStylesEffect getStyle c = Some c' /\
    blockFlags c' = flagsOfType (type b) /\
    countTrue (blockFlags c') <= 1 /\
    selectedHeading c' =
      (if String.eqb (type b) "unstyled" then "paragraph" else type b).
Proof.
  intros Hb.
  destruct (activeStylesEffect_anchor getStyle c b Hb)
    as (c' & Heff & _ & Hflags & Hhead & _).
  exists c'. split; [exact Heff |]. split; [exact Hflags |].
  split; [| exact Hhead].
  rewrite Hflags. apply flagsOfType_exclusive.
Qed.

(** ** The return key *)

(** What [handleReturn] does, for every soft-newline function. *)
Lemma handleReturn_cases softNewline k c :
  handleReturn softNewline {| shiftKey := true; eventKey := k |} c
    = (handled, setEditorState (softNewline (editorState c)) c) /\
  handleReturn softNewline {| shiftKey := false; eventKey := k |} c
    = (not_handled, c).
Proof. split; reflexivity. Qed.

(** ** Selections and maps over the selected blocks *)

Lemma allFrom_spec P i0 bs :
  allFrom P i0 bs = true <->
  forall j b, bs !! j = Some b -> P (i0 + j) b = true.
Proof.
  revert i0. induction bs as [|b0 bs IH]; intros i0; simpl.
  - split; [intros _ j b Hj; discriminate | reflexivity].
  - rewrite andb_true_iff, IH. split.
    + intros [H0 H] [|j] b; simpl.
      * intros [= <-]. rewrite Nat.add_0_r. exact H0.
      * intros Hj. replace (i0 + S j) with (S i0 + j) by lia. eauto.
    + intros H. split.
      * specialize (H 0 b0 eq_refl). rewrite Nat.add_0_r in H. exact H.
      * intros j b Hj. specialize (H (S j) b Hj).
        replace (i0 + S j) with (S i0 + j) in H by lia. exact H.
Qed.

Lemma allSelected_spec P bd bs :
  allSelected P bd bs = true <->
  forall i b, bs !! i = Some b -> blockSelected bd i = true -> P b = true.
Proof.
  unfold allSelected. rewrite allFrom_spec. simpl. split.
  - intros H i b Hi Hsel. specialize (H i b Hi). rewrite Hsel in H. exact H.
  - intros H i b Hi. destruct (blockSelected bd i) eqn:Hsel; simpl; eauto.
Qed.

Lemma allFrom_false P i0 bs :
  allFrom P i0 bs = false ->
  exists j b, bs !! j = Some b /\ P (i0 + j) b = false.
Proof.
  revert i0. induction bs as [|b0 bs IH]; intros i0; simpl; [discriminate |].
  destruct (P i0 b0) eqn:HP; simpl.
  - intros H. destruct (IH _ H) as (j & b & Hj & Hb).
    exists (S j), b. split; [exact Hj |].
    replace (i0 + S j) with (S i0 + j) by lia. exact Hb.
  - intros _. exists 0, b0. split; [reflexivity |].
    rewrite Nat.add_0_r. exact HP.
Qed.

Lemma allSelected_false P bd bs :
  allSelected P bd bs = false <->
  exists i b, bs !! i = Some b /\ blockSelected bd i = true /\ P b = false.
Proof.
  split.
  - intros H. apply allFrom_false in H. destruct H as (j & b & Hj & Hb).
    simpl in Hb. apply orb_false_iff in Hb. destruct Hb as [Hsel HP].
    exists j, b. rewrite negb_false_iff in Hsel. auto.
  - intros (i & b & Hi & Hsel & HP).
    destruct (allSelected P bd bs) eqn:E; [| reflexivity].
    rewrite (proj1 (allSelected_spec P bd bs) E i b Hi Hsel) in HP. discriminate.
Qed.

Lemma indexOfKey_imap (f : nat -> Block -> Block) bs k :
  (forall i b, key (f i b) = key b) ->
  indexOfKey (imap f bs) k = indexOfKey bs k.
Proof.
  revert f. induction bs as [|b0 bs IH]; intros f Hf; simpl; [reflexivity |].
  rewrite Hf. destruct (String.eqb (key b0) k); [reflexivity |].
  rewrite IH; [reflexivity |]. intros i b. apply Hf.
Qed.

Lemma selectionBounds_imap st (f : nat -> Block -> Block) :
  (forall i b, key (f i b) = key b) ->
  selectionBounds (setBlocks st (imap f (blocks st))) = selectionBounds st.
Proof.
  intros Hf. unfold selectionBounds. simpl. rewrite !indexOfKey_imap by exact Hf.
  reflexivity.
Qed.

Lemma selectionBounds_mapSelected st f bd :
  (forall r b, key (f r b) = key b) ->
  selectionBounds (setBlocks st (mapSelected f bd (blocks st))) = selectionBounds st.
Proof.
  intros Hf. apply selectionBounds_imap. intros i b.
  destruct (blockSelected bd i); [apply Hf | reflexivity].
Qed.

Lemma mapSelected_lookup f bd bs i :
  mapSelected f bd bs !! i =
    (fun b => if blockSelected bd i
              then f (blockRange bd i (String.length (text b))) b else b)
      <$> bs !! i.
Proof. unfold mapSelected. apply list_lookup_imap. Qed.

Lemma mapSelected_id f bd bs :
  (forall i b, bs !! i = Some b -> blockSelected bd i = true ->
               f (blockRange bd i (String.length (text b))) b = b) ->
  mapSelected f bd bs = bs.
Proof.
  intros H. apply list_eq. intros i. rewrite mapSelected_lookup.
  destruct (bs !! i) as [b|] eqn:Hi; simpl; [| reflexivity].
  destruct (blockSelected bd i) eqn:Hsel; [| reflexivity].
  f_equal. apply (H i b Hi Hsel).
Qed.

Lemma setBlocks_same st : setBlocks st (blocks st) = st.
Proof. destruct st; reflexivity. Qed.

Lemma setDepth_same b : setDepth (depth b) b = b.
Proof. destruct b; reflexivity. Qed.

(** The block of a key is the block at the index of the key. *)
Lemma getBlockForKey_indexOfKey bs k b :
  getBlockForKey bs k = Some b <->
  exists i, indexOfKey bs k = Some i /\ bs !! i = Some b.
Proof.
  induction bs as [|b0 bs IH]; simpl.
  - split; [discriminate | intros (i & H & _); discriminate].
  - destruct (String.eqb (key b0) k).
    + split.
      * intros [= <-]. exists 0. split; reflexivity.
      * intros (i & [= <-] & H). exact H.
    + rewrite IH. split.
      * intros (i & Hi & Hb). exists (S i). rewrite Hi. split; [reflexivity | exact Hb].
      * intros (i & Hi & Hb). destruct (indexOfKey bs k) as [j|]; [| discriminate].
        injection Hi as <-. exists j. split; [reflexivity | exact Hb].
Qed.

(** ** Indentation *)

Lemma adjustDepth_range shift d :
  (0 <= RichUtils.adjustDepth shift maxIntend d <= maxIntend)%Z.
Proof. unfold RichUtils.adjustDepth, RichUtils.clamp, maxIntend. lia. Qed.

Lemma onTab_depthsInRange e st :
  depthsInRange st -> depthsInRange (RichUtils.onTab e st maxIntend).
Proof.
  unfold depthsInRange, RichUtils.onTab. intros H.
  destruct (selectionBounds st) as [bd|]; [| exact H].
  destruct (allSelected _ bd (blocks st)); [| exact H].
  simpl. rewrite Forall_lookup in H |- *. intros i b.
  rewrite mapSelected_lookup. destruct (blocks st !! i) as [b0|] eqn:Hi; [| discriminate].
  simpl. intros [= <-]. destruct (blockSelected bd i).
  - simpl. apply adjustDepth_range.
  - exact (H i b0 Hi).
Qed.

Lemma indentStep_editorState c op :
  exists e, editorState (indentStep c op) = RichUtils.onTab e (editorState c) maxIntend
            /\ (op = increaseButton -> shiftKey e = false)
            /\ (op = decreaseButton -> shiftKey e = true).
Proof.
  destruct op as [e| |]; eexists; (split; [reflexivity |]);
    split; intros; (reflexivity || discriminate).
Qed.

Lemma indentRun_depthsInRange ops c :
  depthsInRange (editorState c) -> depthsInRange (editorState (indentRun ops c)).
Proof.
  unfold indentRun. revert c. induction ops as [|op ops IH]; intros c H; simpl.
  - exact H.
  - apply IH. destruct (indentStep_editorState c op) as (e & -> & _).
    apply onTab_depthsInRange. exact H.
Qed.

(** Whatever the depths were, a block comes out of an adjustment with the
    depth it had or with a depth in range. *)
Lemma onTab_block e st i b' :
  blocks (RichUtils.onTab e st maxIntend) !! i = Some b' ->
  exists b, blocks st !! i = Some b /\
            (depth b' = depth b \/ (0 <= depth b' <= maxIntend)%Z).
Proof.
  unfold RichUtils.onTab.
  destruct (selectionBounds st) as [bd|]; [| intros H; exists b'; auto].
  destruct (allSelected _ bd (blocks st)); [| intros H; exists b'; auto].
  simpl. rewrite mapSelected_lookup.
  destruct (blocks st !! i) as [b|]; [| discriminate]. simpl.
  intros [= <-]. exists b. split; [reflexivity |].
  destruct (blockSelected bd i); [right | left; reflexivity].
  simpl. apply adjustDepth_range.
Qed.

Lemma indentRun_block ops c i b' :
  blocks (editorState (indentRun ops c)) !! i = Some b' ->
  exists b, blocks (editorState c) !! i = Some b /\
            (depth b' = depth b \/ (0 <= depth b' <= maxIntend)%Z).
Proof.
  unfold indentRun. revert c. induction ops as [|op ops IH]; intros c; simpl.
  - intros H. exists b'. auto.
  - intros H. destruct (IH _ H) as (b1 & Hb1 & Hd1).
    destruct (indentStep_editorState c op) as (e & He & _). rewrite He in Hb1.
    destruct (onTab_block e _ i b1 Hb1) as (b & Hb & Hd).
    exists b. split; [exact Hb |].
    destruct Hd1 as [Hd1 | Hd1]; [| right; exact Hd1].
    rewrite Hd1. exact Hd.
Qed.

(** An adjustment that moves no selected depth leaves the state as it is. *)
Lemma onTab_fixed e st :
  (forall bd i b, selectionBounds st = Some bd -> blocks st !! i = Some b ->
      blockSelected bd i = true ->
      RichUtils.adjustDepth (shiftKey e) maxIntend (depth b) = depth b) ->
  RichUtils.onTab e st maxIntend = st.
Proof.
  intros H. unfold RichUtils.onTab.
  destruct (selectionBounds st) as [bd|] eqn:Hbd; [| reflexivity].
  destruct (allSelected _ bd (blocks st)); [| reflexivity].
  rewrite mapSelected_id; [apply setBlocks_same |].
  intros i b Hi Hsel. rewrite (H bd i b eq_refl Hi Hsel). apply setDepth_same.
Qed.

Lemma onTab_off_list e st :
  selectionOffList st -> RichUtils.onTab e st maxIntend = st.
Proof.
  intros (bd & i & b & Hbd & Hi & Hsel & Hty). unfold RichUtils.onTab.
  rewrite Hbd.
  replace (allSelected (fun b => isListItem (type b)) bd (blocks st)) with false;
    [reflexivity |].
  symmetry. apply allSelected_false. exists i, b. auto.
Qed.

(** C3: every sequence of indent increases and decreases leaves the depth of
    every block in [0, 4] when the depths started there, and, whatever the
    depths it starts from, leaves each block with the depth it had or with
    a depth in [0, 4]; the depth an adjustment produces is always in
    [0, 4]; an increase at depth 4 and a decrease at depth 0 change
    nothing, nor does any adjustment when a selected block is not a list
    item. *)
Theorem indent_depth_stays_in_range (c : TextEditorState) (ops : list IndentOp) :
  (depthsInRange (editorState c) ->
     depthsInRange (editorState (indentRun ops c))) /\
  (forall i b', blocks (editorState (indentRun ops c)) !! i = Some b' ->
     exists b, blocks (editorState c) !! i = Some b /\
               (depth b' = depth b \/ (0 <= depth b' <= 4)%Z)) /\
  (forall shift d, (0 <= RichUtils.adjustDepth shift maxIntend d <= 4)%Z) /\
  (selectionAtDepth (editorState c) 4 ->
     editorState (indentStep c increaseButton) = editorState c) /\
  (selectionAtDepth (editorState c) 0 ->
     editorState (indentStep c decreaseButton) = editorState c) /\
  (selectionOffList (editorState c) ->
     forall op, editorState (indentStep c op) = editorState c).
Proof.
  split; [apply indentRun_depthsInRange |].
  split; [apply indentRun_block |].
  split; [apply adjustDepth_range |].
  split; [| split].
  - intros Hd. simpl. apply onTab_fixed. intros bd i b Hbd Hi Hsel.
    rewrite (Hd bd i b Hbd Hi Hsel). reflexivity.
  - intros Hd. simpl. apply onTab_fixed. intros bd i b Hbd Hi Hsel.
    rewrite (Hd bd i b Hbd Hi Hsel). reflexivity.
  - intros Hoff op. destruct (indentStep_editorState c op) as (e & -> & _).
    apply onTab_off_list. exact Hoff.
Qed.

(** ** Block types *)

Lemma applyBlockStyle_types st t bd :
  selectionBounds st = Some bd ->
  selectionBounds (Helper.applyBlockStyle st t) = Some bd /\
  forall i b, blocks (Helper.applyBlockStyle st t) !! i = Some b ->
              blockSelected bd i = true ->
              type b = Helper.nextType bd (blocks st) t.
Proof.
  intros Hbd. unfold Helper.applyBlockStyle. rewrite Hbd. split.
  - rewrite selectionBounds_mapSelected; [exact Hbd | reflexivity].
  - simpl. intros i b. rewrite mapSelected_lookup.
    destruct (blocks st !! i) as [b0|]; [| discriminate]. simpl.
    intros [= <-] ->. reflexivity.
Qed.

Lemma applyBlockStyle_unresolved st t :
  selectionBounds st = None -> Helper.applyBlockStyle st t = st.
Proof. intros H. unfold Helper.applyBlockStyle. rewrite H. reflexivity. Qed.

Lemma selectionHasType_applyBlockStyle st t bd :
  selectionBounds st = Some bd ->
  selectionHasType (Helper.applyBlockStyle st t) (Helper.nextType bd (blocks st) t).
Proof.
  intros Hbd bd' i b Hbd' Hi Hsel.
  destruct (applyBlockStyle_types st t bd Hbd) as [Hbd2 Hty].
  rewrite Hbd2 in Hbd'. injection Hbd' as <-. eauto.
Qed.

Lemma selectionHasType_allSelected st t bd :
  selectionBounds st = Some bd ->
  (selectionHasType st t <->
   allSelected (fun b => String.eqb (type b) t) bd (blocks st) = true).
Proof.
  intros Hbd. rewrite allSelected_spec. split.
  - intros H i b Hi Hsel. apply String.eqb_eq. exact (H bd i b Hbd Hi Hsel).
  - intros H bd' i b Hbd' Hi Hsel. rewrite Hbd in Hbd'. injection Hbd' as <-.
    apply String.eqb_eq. exact (H i b Hi Hsel).
Qed.

Lemma selectionHasType_unresolved st t :
  selectionBounds st = None -> selectionHasType st t.
Proof. intros H bd i b Hbd. congruence. Qed.

(** Requesting the type the selection has resets it, headings apart. *)
Lemma applyBlockStyle_resets st t :
  isHeading t = false -> selectionHasType st t ->
  selectionHasType (Helper.applyBlockStyle st t) "paragraph".
Proof.
  intros Hh Ht. destruct (selectionBounds st) as [bd|] eqn:Hbd.
  - pose proof (selectionHasType_applyBlockStyle st t bd Hbd) as H.
    unfold Helper.nextType in H.
    rewrite (proj1 (selectionHasType_allSelected st t bd Hbd) Ht), Hh in H.
    exact H.
  - apply selectionHasType_unresolved.
    rewrite applyBlockStyle_unresolved; exact Hbd.
Qed.

(** Requesting any other type, or a heading, sets it. *)
Lemma applyBlockStyle_sets st t :
  isHeading t = true \/ ~ selectionHasType st t ->
  selectionHasType (Helper.applyBlockStyle st t) t.
Proof.
  intros Hcase. destruct (selectionBounds st) as [bd|] eqn:Hbd.
  - pose proof (selectionHasType_applyBlockStyle st t bd Hbd) as H.
    unfold Helper.nextType in H.
    destruct (allSelected _ bd (blocks st)) eqn:Hall; simpl in H.
    + destruct (isHeading t) eqn:Hh; simpl in H; [exact H |].
      destruct Hcase as [? | Hn]; [discriminate |].
      destruct Hn. apply (selectionHasType_allSelected st t bd Hbd). exact Hall.
    + exact H.
  - apply selectionHasType_unresolved.
    rewrite applyBlockStyle_unresolved; exact Hbd.
Qed.

Lemma isHeading_not_list t : isHeading t = true -> isListItem t = false.
Proof.
  unfold isHeading, isListItem. intros H.
  apply orb_true_iff in H. destruct H as [H | H];
    [apply orb_true_iff in H; destruct H as [H | H] |];
    apply String.eqb_eq in H; subst t; reflexivity.
Qed.

Lemma retype_same t b :
  type b = t -> isListItem t = false -> Helper.retype t b = b.
Proof.
  intros <- Hl. unfold Helper.retype. rewrite Hl. destruct b; reflexivity.
Qed.

(** A heading requested on blocks that have it changes nothing at all. *)
Lemma applyBlockStyle_heading_again st t :
  isHeading t = true -> selectionHasType st t -> Helper.applyBlockStyle st t = st.
Proof.
  intros Hh Ht. unfold Helper.applyBlockStyle.
  destruct (selectionBounds st) as [bd|] eqn:Hbd; [| reflexivity].
  unfold Helper.nextType. rewrite Hh, andb_false_r.
  rewrite mapSelected_id; [apply setBlocks_same |].
  intros i b Hi Hsel. apply retype_same; [| apply isHeading_not_list; exact Hh].
  exact (Ht bd i b Hbd Hi Hsel).
Qed.

(** The requests the toolbar makes. *)
Lemma toolbar_block_requests apply c k label :
  editorState (onUnorderedListMouseDown apply c)
    = apply (editorState c) "unordered-list-item" /\
  editorState (onOrderedListMouseDown apply c)
    = apply (editorState c) "ordered-list-item" /\
  editorState (onBlockquoteMouseDown apply c) = apply (editorState c) "blockquote" /\
  editorState (onCodeBlockMouseDown apply c) = apply (editorState c) "code-block" /\
  (In k ["paragraph"; "header-one"; "header-two"; "header-three"] ->
   editorState
     (onHeadingChange apply (Some {| optionKey := k; optionText := label |}) c)
     = apply (editorState c) k).
Proof.
  repeat split. simpl.
  intros [<- | [<- | [<- | [<- | []]]]]; reflexivity.
Qed.

(** C1, as the code has it: requesting the type [t] that the selected blocks
    already have resets them to [paragraph], unless [t] is a heading type,
    in which case the state is left as it is (so a heading requested twice
    is the heading requested once).  For a type that is not a heading,
    requesting it twice leaves the blocks with [paragraph] when they did not
    all have that type to begin with; when they did, the second request
    sets the type again. *)
Theorem applyBlockStyle_toggle (st : EditorState) (t : BlockType) :
  (isHeading t = false -> selectionHasType st t ->
     selectionHasType (Helper.applyBlockStyle st t) "paragraph") /\
  (isHeading t = true -> selectionHasType st t ->
     Helper.applyBlockStyle st t = st) /\
  (isHeading t = true ->
     selectionHasType (Helper.applyBlockStyle st t) t /\
     Helper.applyBlockStyle (Helper.applyBlockStyle st t) t
       = Helper.applyBlockStyle st t) /\
  (isHeading t = false -> ~ selectionHasType st t ->
     selectionHasType
       (Helper.applyBlockStyle (Helper.applyBlockStyle st t) t) "paragraph") /\
  (isHeading t = false -> selectionHasType st t ->
     selectionHasType
       (Helper.applyBlockStyle (Helper.applyBlockStyle st t) t) t).
Proof.
  split; [apply applyBlockStyle_resets |].
  split; [apply applyBlockStyle_heading_again |].
  split; [| split].
  - intros Hh.
    assert (Hset : selectionHasType (Helper.applyBlockStyle st t) t)
      by (apply applyBlockStyle_sets; left; exact Hh).
    split; [exact Hset |]. apply applyBlockStyle_heading_again; assumption.
  - intros Hh Hn. apply applyBlockStyle_resets; [exact Hh |].
    apply applyBlockStyle_sets. right. exact Hn.
  - intros Hh Ht.
    pose proof (applyBlockStyle_resets st t Hh Ht) as Hp.
    destruct (String.eqb_spec t "paragraph") as [-> | Hne].
    + apply applyBlockStyle_resets; [reflexivity | exact Hp].
    + intros bd i b Hbd Hi Hsel.
      refine (applyBlockStyle_sets _ t _ bd i b Hbd Hi Hsel). right. intros Hc.
      assert (Hbd1 : selectionBounds (Helper.applyBlockStyle st t) = Some bd).
      { destruct (selectionBounds (Helper.applyBlockStyle st t)) as [bd1|] eqn:E.
        - destruct (applyBlockStyle_types _ t bd1 E) as [E' _]. congruence.
        - rewrite applyBlockStyle_unresolved in Hbd by exact E. congruence. }
      unfold Helper.applyBlockStyle in Hi at 1. rewrite Hbd1 in Hi. simpl in Hi.
      rewrite mapSelected_lookup in Hi.
      destruct (blocks (Helper.applyBlockStyle st t) !! i) as [b1|] eqn:Hi1;
        [| discriminate].
      apply Hne. rewrite <- (Hc bd i b1 Hbd1 Hi1 Hsel).
      exact (Hp bd i b1 Hbd1 Hi1 Hsel).
Qed.

(** ** Ranges *)

Ltac cases_nat :=
  repeat match goal with
         | |- context [?a <? ?b] => destruct (Nat.ltb_spec a b)
         | |- context [?a <=? ?b] => destruct (Nat.leb_spec a b)
         end; simpl; try reflexivity; try lia.

Lemma covers_app {A} `{EqDecision A} (rs rs' : list (A * nat * nat)) a p :
  covers (rs ++ rs') a p = covers rs a p || covers rs' a p.
Proof. unfold covers. apply existsb_app. Qed.

Lemma covers_cutRange {A} `{EqDecision A} cut (r : A * nat * nat) a p :
  cut.1 < cut.2 ->
  covers (cutRange cut r) a p =
    bool_decide (r.1.1 = a) && inRange (r.1.2, r.2) p && negb (inRange cut p).
Proof.
  destruct r as [[a0 s] e], cut as [lo hi]. simpl. intros Hcut.
  unfold cutRange, covers, inRange. simpl.
  destruct (Nat.ltb_spec s (Nat.min e lo)), (Nat.ltb_spec (Nat.max s hi) e);
    simpl; case_bool_decide; simpl; cases_nat.
Qed.

Lemma covers_removeLabel {A} `{EqDecision A} a cut (rs : list (A * nat * nat)) a' p :
  cut.1 < cut.2 ->
  covers (removeLabel a cut rs) a' p =
    covers rs a' p && negb (bool_decide (a = a') && inRange cut p).
Proof.
  intros Hcut. induction rs as [|r rs IH]; [reflexivity |].
  unfold removeLabel in *. simpl. rewrite covers_app, IH.
  change (covers (r :: rs) a' p)
    with ((bool_decide (r.1.1 = a') && inRange (r.1.2, r.2) p) || covers rs a' p).
  destruct (decide (r.1.1 = a)) as [Hr | Hr].
  - rewrite (bool_decide_eq_true_2 _ Hr), covers_cutRange by exact Hcut.
    subst a.
    destruct (bool_decide (r.1.1 = a')), (inRange (r.1.2, r.2) p),
      (inRange cut p), (covers rs a' p); reflexivity.
  - rewrite (bool_decide_eq_false_2 _ Hr).
    change (covers [r] a' p)
      with ((bool_decide (r.1.1 = a') && inRange (r.1.2, r.2) p) || false).
    destruct (decide (r.1.1 = a')) as [Hr' | Hr'].
    + rewrite (bool_decide_eq_true_2 _ Hr').
      rewrite (bool_decide_eq_false_2 (a = a')) by congruence.
      destruct (inRange (r.1.2, r.2) p), (inRange cut p), (covers rs a' p);
        reflexivity.
    + rewrite (bool_decide_eq_false_2 _ Hr'). simpl. reflexivity.
Qed.

Lemma covers_addLabel {A} `{EqDecision A} a cut (rs : list (A * nat * nat)) a' p :
  cut.1 < cut.2 ->
  covers (addLabel a cut rs) a' p =
    covers rs a' p || (bool_decide (a = a') && inRange cut p).
Proof.
  intros Hcut. unfold addLabel. rewrite covers_app, covers_removeLabel by exact Hcut.
  change (covers [(a, cut.1, cut.2)] a' p)
    with ((bool_decide (a = a') && inRange (cut.1, cut.2) p) || false).
  replace (inRange (cut.1, cut.2) p) with (inRange cut p) by reflexivity.
  destruct (covers rs a' p), (bool_decide (a = a')), (inRange cut p); reflexivity.
Qed.

Lemma inRange_empty r p : r.2 <= r.1 -> inRange r p = false.
Proof. intros H. unfold inRange. cases_nat. Qed.

(** The styles of a block after a toggle over the offsets [r]. *)
Lemma carries_restyle on s r b s' p :
  carries (Helper.restyle on s r b) s' p =
    if bool_decide (s = s') && inRange r p then on else carries b s' p.
Proof.
  unfold Helper.restyle. destruct (Nat.ltb_spec r.1 r.2) as [Hlt | Hge].
  - unfold carries. simpl. destruct on.
    + rewrite covers_addLabel by exact Hlt.
      destruct (covers _ s' p), (bool_decide (s = s')), (inRange r p); reflexivity.
    + rewrite covers_removeLabel by exact Hlt.
      destruct (covers _ s' p), (bool_decide (s = s')), (inRange r p); reflexivity.
  - rewrite inRange_empty by exact Hge. rewrite andb_false_r. reflexivity.
Qed.

Lemma restyle_key on s r b : key (Helper.restyle on s r b) = key b.
Proof. unfold Helper.restyle. destruct (r.1 <? r.2); reflexivity. Qed.

Lemma restyle_text on s r b : text (Helper.restyle on s r b) = text b.
Proof. unfold Helper.restyle. destruct (r.1 <? r.2); reflexivity. Qed.

(** ** Inline styles *)

Lemma rangeCarries_spec s r b :
  Helper.rangeCarries s r b = true <->
  forall p, inRange r p = true -> carries b s p = true.
Proof.
  unfold Helper.rangeCarries, inRange. rewrite forallb_forall. split.
  - intros H p Hp. apply H. apply in_seq.
    apply andb_true_iff in Hp. destruct Hp as [H1 H2].
    apply Nat.leb_le in H1. apply Nat.ltb_lt in H2. lia.
  - intros H p Hp. apply in_seq in Hp. apply H.
    apply andb_true_iff. split; [apply Nat.leb_le | apply Nat.ltb_lt]; lia.
Qed.

Lemma selectionCarries_spec s bd bs :
  Helper.selectionCarries s bd bs = true <->
  forall i b p, bs !! i = Some b -> charSelected bd i b p = true ->
                carries b s p = true.
Proof.
  unfold Helper.selectionCarries, charSelected. rewrite allFrom_spec. simpl. split.
  - intros H i b p Hi Hp. apply andb_true_iff in Hp. destruct Hp as [Hsel Hp].
    specialize (H i b Hi). rewrite Hsel in H. simpl in H.
    exact (proj1 (rangeCarries_spec _ _ _) H p Hp).
  - intros H i b Hi. destruct (blockSelected bd i) eqn:Hsel; [| reflexivity].
    simpl. apply rangeCarries_spec. intros p Hp. apply (H i b p Hi).
    rewrite Hsel. exact Hp.
Qed.

Lemma selectionStyledb_spec st s :
  selectionStyledb st s = true <-> selectionStyled st s.
Proof.
  unfold selectionStyledb, selectionStyled, selectedAt, styleAt.
  destruct (selectionBounds st) as [bd|].
  - rewrite selectionCarries_spec. split.
    + intros H i p. destruct (blocks st !! i) as [b|] eqn:Hi; [| discriminate].
      apply H. exact Hi.
    + intros H i b p Hi Hp. specialize (H i p). rewrite Hi in H. exact (H Hp).
  - split; [intros _ i p; discriminate | reflexivity].
Qed.

(** A collapsed selection holds no character. *)
Lemma charSelected_collapsed bd i b p :
  isCollapsed bd = true -> charSelected bd i b p = false.
Proof.
  unfold isCollapsed, charSelected, blockSelected, blockRange, inRange.
  intros H. apply andb_true_iff in H. destruct H as [H1 H2].
  apply Nat.eqb_eq in H1, H2. rewrite <- H1, <- H2.
  destruct (Nat.eqb_spec i bd.1.1); simpl; cases_nat.
Qed.

Lemma selectedAt_applyInlineStyle st s i p :
  selectedAt (Helper.applyInlineStyle st s) i p = selectedAt st i p.
Proof.
  unfold Helper.applyInlineStyle.
  destruct (selectionBounds st) as [bd|] eqn:Hbd; [| reflexivity].
  destruct (isCollapsed bd); [reflexivity |].
  unfold selectedAt.
  rewrite selectionBounds_mapSelected by (intros; apply restyle_key).
  rewrite Hbd. simpl. rewrite mapSelected_lookup.
  destruct (blocks st !! i) as [b|]; [| reflexivity]. simpl.
  unfold charSelected. destruct (blockSelected bd i); [| reflexivity].
  rewrite restyle_text. reflexivity.
Qed.

(** One toggle: the selected characters get the style when some of them
    lacked it and lose it when all of them had it; nothing else changes. *)
Lemma styleAt_applyInlineStyle st s i s' p :
  styleAt (Helper.applyInlineStyle st s) i s' p =
    if bool_decide (s = s') && selectedAt st i p
    then negb (selectionStyledb st s)
    else styleAt st i s' p.
Proof.
  unfold Helper.applyInlineStyle, selectionStyledb, selectedAt.
  destruct (selectionBounds st) as [bd|] eqn:Hbd.
  - destruct (isCollapsed bd) eqn:Hc.
    + destruct (blocks st !! i) as [b|];
        [rewrite charSelected_collapsed by exact Hc |];
        rewrite andb_false_r; reflexivity.
    + unfold styleAt. simpl. rewrite mapSelected_lookup.
      destruct (blocks st !! i) as [b|]; simpl;
        [| rewrite andb_false_r; reflexivity].
      unfold charSelected. destruct (blockSelected bd i); simpl.
      * apply carries_restyle.
      * rewrite andb_false_r. reflexivity.
  - rewrite andb_false_r. reflexivity.
Qed.

(** Two toggles: the selected characters end with the style when all of
    them had it and without it otherwise. *)
Lemma styleAt_applyInlineStyle_twice st s i s' p :
  styleAt (Helper.applyInlineStyle (Helper.applyInlineStyle st s) s) i s' p =
    if bool_decide (s = s') && selectedAt st i p
    then selectionStyledb st s
    else styleAt st i s' p.
Proof.
  rewrite styleAt_applyInlineStyle, selectedAt_applyInlineStyle.
  destruct (bool_decide (s = s') && selectedAt st i p) eqn:Hcase;
    [| rewrite styleAt_applyInlineStyle, Hcase; reflexivity].
  apply andb_true_iff in Hcase. destruct Hcase as [_ Hsel].
  destruct (selectionStyledb st s) eqn:Hall.
  - apply negb_true_iff.
    destruct (selectionStyledb (Helper.applyInlineStyle st s) s) eqn:E;
      [| reflexivity].
    apply selectionStyledb_spec in E. specialize (E i p).
    rewrite selectedAt_applyInlineStyle, styleAt_applyInlineStyle in E.
    rewrite bool_decide_eq_true_2, Hsel, Hall in E by reflexivity.
    simpl in E. symmetry. exact (E eq_refl).
  - apply negb_false_iff. apply selectionStyledb_spec. intros j q Hq.
    rewrite selectedAt_applyInlineStyle in Hq.
    rewrite styleAt_applyInlineStyle, bool_decide_eq_true_2, Hq, Hall by reflexivity.
    reflexivity.
Qed.

(** C2, as the code has it: when the selection carries the style on all of
    its characters or on none of them, toggling the style twice gives every
    character of the document the styles it had.  When the selection does
    not carry the style on all of its characters (so in particular when it
    carries it in part), the first toggle puts the style on every selected
    character and the second takes it off every selected character.  In
    every case the other styles, and the characters outside the selection,
    are as they were after one toggle and after two. *)
Theorem applyInlineStyle_twice_restores (st : EditorState) (s : InlineStyle) :
  let once := Helper.applyInlineStyle st s in
  let twice := Helper.applyInlineStyle once s in
  (selectionStyled st s \/ selectionUnstyled st s ->
     forall i s' p, styleAt twice i s' p = styleAt st i s' p) /\
  (~ selectionStyled st s ->
     forall i p, selectedAt st i p = true ->
                 styleAt once i s p = true /\ styleAt twice i s p = false) /\
  (forall i s' p, s' <> s \/ selectedAt st i p = false ->
     styleAt once i s' p = styleAt st i s' p /\
     styleAt twice i s' p = styleAt st i s' p).
Proof.
  intros once twice. split; [| split].
  - intros Huniform i s' p. unfold twice, once.
    rewrite styleAt_applyInlineStyle_twice.
    destruct (bool_decide (s = s') && selectedAt st i p) eqn:Hcase; [| reflexivity].
    apply andb_true_iff in Hcase. destruct Hcase as [Hs Hsel].
    apply bool_decide_eq_true in Hs. subst s'.
    destruct Huniform as [Hall | Hnone].
    + rewrite (Hall i p Hsel). apply selectionStyledb_spec. exact Hall.
    + rewrite (Hnone i p Hsel).
      destruct (selectionStyledb st s) eqn:E; [| reflexivity].
      apply selectionStyledb_spec in E.
      pose proof (E i p Hsel) as H1. pose proof (Hnone i p Hsel) as H0. congruence.
  - intros Hnot i p Hsel.
    assert (Hb : selectionStyledb st s = false).
    { destruct (selectionStyledb st s) eqn:E; [| reflexivity].
      destruct Hnot. apply selectionStyledb_spec. exact E. }
    unfold twice, once.
    rewrite styleAt_applyInlineStyle, styleAt_applyInlineStyle_twice.
    rewrite bool_decide_eq_true_2, Hsel, Hb by reflexivity. split; reflexivity.
  - intros i s' p Hcase. unfold twice, once.
    rewrite styleAt_applyInlineStyle, styleAt_applyInlineStyle_twice.
    replace (bool_decide (s = s') && selectedAt st i p) with false;
      [split; reflexivity |].
    destruct Hcase as [Hne | Hsel].
    + rewrite bool_decide_eq_false_2 by congruence. reflexivity.
    + rewrite Hsel, andb_false_r. reflexivity.
Qed.

(** ** The active styles *)

Lemma has_filter (f : InlineStyle -> bool) s :
  has (List.filter f allStyles) s = f s.
Proof.
  unfold allStyles. simpl.
  destruct s, (f BOLD) eqn:?, (f ITALIC) eqn:?, (f UNDERLINE) eqn:?,
    (f STRIKETHROUGH) eqn:?; reflexivity.
Qed.

Lemma has_getCurrentInlineStyle st s :
  has (Draft.getCurrentInlineStyle st) s = true <-> selectionStyled st s.
Proof.
  unfold Draft.getCurrentInlineStyle. rewrite has_filter.
  apply selectionStyledb_spec.
Qed.

(** C5: the derived flags report an inline style as active exactly when the
    style covers every character of the selection, and report as block type
    the type of the block that carries the anchor key ([unstyled] being
    shown as [paragraph]). *)
Theorem activeStylesEffect_query (c : TextEditorState) (b : Block) :
  getBlockForKey (blocks (editorState c))
    (anchorKey (selection (editorState c))) = Some b ->
  exists c',
    activeStylesEffect Draft.getCurrentInlineStyle c = Some c' /\
    (forall s, inlineFlag c' s = true <-> selectionStyled (editorState c) s) /\
    (forall s, inlineFlag c' s = true <->
       forall i p, selectedAt (editorState c) i p = true ->
                   styleAt (editorState c) i s p = true) /\
    blockFlags c' = flagsOfType (type b) /\
    selectedHeading c' =
      (if String.eqb (type b) "unstyled" then "paragraph" else type b).
Proof.
  intros Hb.
  destruct (activeStylesEffect_anchor Draft.getCurrentInlineStyle c b Hb)
    as (c' & Heff & _ & Hflags & Hhead & HB & HI & HU & HS).
  assert (Hinline : forall s, inlineFlag c' s = true <->
                              selectionStyled (editorState c) s).
  { intros s. rewrite <- has_getCurrentInlineStyle.
    destruct s; simpl; [rewrite HB | rewrite HI | rewrite HU | rewrite HS];
      reflexivity. }
  exists c'. split; [exact Heff |]. split; [exact Hinline |].
  split; [exact Hinline |]. split; [exact Hflags | exact Hhead].
Qed.

(** ** Links *)

(** C4: [addLink] with an empty url returns the state it was given; so the
    link dialog, submitted with an empty url by the button or by the enter
    key, leaves the editor state, and with it the entities, as they were. *)
Theorem addLink_empty_url_noop (st : EditorState) :
  Helper.addLink st "" = st /\
  entityMap (Helper.addLink st "") = entityMap st /\
  (forall c, editorState c = st ->
     editorState (onAddLinkClick Helper.addLink (setUrlValue "" c)) = st) /\
  (forall c shift, editorState c = st ->
     editorState (onUrlKeyDown Helper.addLink
                    {| shiftKey := shift; eventKey := "Enter" |}
                    (setUrlValue "" c)) = st).
Proof.
  split; [reflexivity |]. split; [reflexivity |].
  split; intros; simpl; assumption.
Qed.

(** With a url the link is made: a fresh entity appears. *)
Lemma addLink_url_entity st u bd :
  u <> "" -> selectionBounds st = Some bd ->
  exists k, entityMap st !! k = None /\
            entityMap (Helper.addLink st u) !! k
              = Some {| url := u;
                        linkText := Helper.selectedText bd (blocks st) |}.
Proof.
  intros Hu Hbd. unfold Helper.addLink.
  destruct (String.eqb_spec u ""); [contradiction |]. rewrite Hbd. simpl.
  exists (fresh (dom (entityMap st))). split.
  - apply not_elem_of_dom. apply is_fresh.
  - apply lookup_insert_eq.
Qed.

(** ** Soft line breaks *)

Lemma length_append s1 s2 :
  String.length (s1 +:+ s2) = String.length s1 + String.length s2.
Proof. induction s1 as [|ch s1 IH]; simpl; [reflexivity | rewrite IH; reflexivity]. Qed.

Lemma length_substring n m s :
  String.length (String.substring n m s) = Nat.min m (String.length s - n).
Proof.
  revert n m. induction s as [|ch s IH]; intros [|n] [|m]; simpl;
    try reflexivity; rewrite IH, ?Nat.sub_0_r; reflexivity.
Qed.

Lemma substring_all s : String.substring 0 (String.length s) s = s.
Proof. induction s as [|ch s IH]; simpl; [reflexivity | rewrite IH; reflexivity]. Qed.

Lemma substring_split p s :
  String.substring 0 p s +:+ String.substring p (String.length s - p) s = s.
Proof.
  revert p. induction s as [|ch s IH]; intros [|p]; simpl; try reflexivity.
  - rewrite substring_all. reflexivity.
  - exact (f_equal (String ch) (IH p)).
Qed.

Lemma breakLine_text p b :
  exists before after,
    text b = before +:+ after /\
    text (RichUtils.breakLine p b) = before +:+ Helper.lineBreak +:+ after /\
    String.length (text (RichUtils.breakLine p b)) = S (String.length (text b)).
Proof.
  exists (String.substring 0 p (text b)),
    (String.substring p (String.length (text b) - p) (text b)).
  split; [symmetry; apply substring_split |]. split; [reflexivity |].
  simpl. rewrite !length_append, !length_substring. simpl. lia.
Qed.

Lemma insertSoftNewline_blocks st bd :
  selectionBounds st = Some bd ->
  forall i,
    blocks (RichUtils.insertSoftNewline st) !! i =
      (fun b => if i =? bd.1.1 then RichUtils.breakLine bd.1.2 b else b)
        <$> blocks st !! i.
Proof.
  intros Hbd i. unfold RichUtils.insertSoftNewline. rewrite Hbd. simpl.
  apply list_lookup_imap.
Qed.

Lemma insertSoftNewline_keys st :
  key <$> blocks (RichUtils.insertSoftNewline st) = key <$> blocks st.
Proof.
  unfold RichUtils.insertSoftNewline.
  destruct (selectionBounds st) as [bd|]; [| reflexivity]. simpl.
  apply list_eq. intros i. rewrite !list_lookup_fmap, list_lookup_imap.
  destruct (blocks st !! i) as [b|]; [| reflexivity]. simpl.
  destruct (i =? bd.1.1); reflexivity.
Qed.

(** What the soft line break does to the blocks. *)
Lemma insertSoftNewline_in_block st :
  List.length (blocks (RichUtils.insertSoftNewline st)) = List.length (blocks st) /\
  (forall bd b, selectionBounds st = Some bd -> blocks st !! bd.1.1 = Some b ->
     exists b' before after,
       blocks (RichUtils.insertSoftNewline st) !! bd.1.1 = Some b' /\
       text b = before +:+ after /\
       text b' = before +:+ Helper.lineBreak +:+ after /\
       forall i, i <> bd.1.1 ->
                 blocks (RichUtils.insertSoftNewline st) !! i = blocks st !! i).
Proof.
  split.
  { rewrite <- (length_fmap key (blocks (RichUtils.insertSoftNewline st))),
      <- (length_fmap key (blocks st)), insertSoftNewline_keys. reflexivity. }
  intros bd b Hbd Hb.
  destruct (breakLine_text bd.1.2 b) as (before & after & Hsplit & Htext & _).
  exists (RichUtils.breakLine bd.1.2 b), before, after.
  split.
  { rewrite (insertSoftNewline_blocks st bd Hbd), Hb. simpl.
    rewrite Nat.eqb_refl. reflexivity. }
  split; [exact Hsplit |]. split; [exact Htext |].
  intros i Hi. rewrite (insertSoftNewline_blocks st bd Hbd).
  destruct (blocks st !! i) as [b0|]; [| reflexivity]. simpl.
  destruct (Nat.eqb_spec i bd.1.1); [contradiction | reflexivity].
Qed.

(** C7: with the shift key held, the return key is handled and the editor
    state of the component becomes the one with a soft line break, nothing
    else of the component changing: its blocks are the same in number and
    keys as before, and the block at the start of the selection has the
    line-break character inserted into its text.  Whatever the soft line
    break of the library is, the editor state of the component is its
    result.  Without the shift key the event is reported as not handled and
    the component state is left to the editor. *)
Theorem handleReturn_soft_newline (k : string) (c : TextEditorState) :
  let st := editorState c in
  let st' := RichUtils.insertSoftNewline st in
  let r := handleReturn RichUtils.insertSoftNewline
             {| shiftKey := true; eventKey := k |} c in
  r = (handled, setEditorState st' c) /\
  r.1 = handled /\
  editorState r.2 = st' /\
  r.2 = setEditorState (editorState r.2) c /\
  List.length (blocks (editorState r.2)) = List.length (blocks st) /\
  key <$> blocks (editorState r.2) = key <$> blocks st /\
  (forall bd b, selectionBounds st = Some bd -> blocks st !! bd.1.1 = Some b ->
     exists b' before after,
       blocks (editorState r.2) !! bd.1.1 = Some b' /\
       text b = before +:+ after /\
       text b' = before +:+ Helper.lineBreak +:+ after /\
       forall i, i <> bd.1.1 ->
                 blocks (editorState r.2) !! i = blocks st !! i) /\
  (forall softNewline,
     editorState
       (handleReturn softNewline {| shiftKey := true; eventKey := k |} c).2
       = softNewline (editorState c)) /\
  (forall softNewline,
     handleReturn softNewline {| shiftKey := false; eventKey := k |} c
       = (not_handled, c)).
Proof.
  intros st st' r.
  assert (Hst : editorState r.2 = st') by reflexivity.
  split; [reflexivity |]. split; [reflexivity |]. split; [exact Hst |].
  split; [reflexivity |]. rewrite Hst.
  destruct (insertSoftNewline_in_block st) as [Hlen Hblock].
  split; [exact Hlen |]. split; [apply insertSoftNewline_keys |].
  split; [exact Hblock |]. split; reflexivity.
Qed.

(** * The properties on sample documents *)

Example bold_hello :
  inlineStyleRanges <$> blocks (Helper.applyInlineStyle helloState BOLD)
    = [[(BOLD, 0, 5)]] /\
  Draft.getCurrentInlineStyle (Helper.applyInlineStyle helloState BOLD) = [BOLD].
Proof. split; reflexivity. Qed.

Example heading_twice :
  let once := Helper.applyBlockStyle helloState "header-one" in
  type <$> blocks once = ["header-one"] /\
  type <$> blocks (Helper.applyBlockStyle once "header-one") = ["header-one"].
Proof. split; reflexivity. Qed.

Example decrease_three_times :
  let c := sampleComponent listState in
  depth <$> blocks (editorState (indentRun [decreaseButton; decreaseButton] c))
    = [0%Z] /\
  depth <$> blocks
    (editorState (indentRun [decreaseButton; decreaseButton; decreaseButton] c))
    = [0%Z].
Proof. split; reflexivity. Qed.

(** A quotation on which [blockquote] is requested twice is a quotation
    again: the first request resets it to a paragraph, the second sets the
    type. *)
Lemma applyBlockStyle_twice_not_paragraph :
  isHeading "blockquote" = false /\
  type <$> blocks
    (Helper.applyBlockStyle (Helper.applyBlockStyle quoteState "blockquote")
       "blockquote") = ["blockquote"; "paragraph"] /\
  ~ selectionHasType
      (Helper.applyBlockStyle (Helper.applyBlockStyle quoteState "blockquote")
         "blockquote") "paragraph".
Proof.
  split; [reflexivity |]. split; [reflexivity |].
  intros H.
  specialize (H ((0, 0), (0, 2)) 0 (sampleBlock "a" "blockquote" "ab" [] 0)
                eq_refl eq_refl eq_refl).
  discriminate H.
Qed.

Lemma applyBlockStyle_toggle_witness :
  isHeading "blockquote" = false /\
  selectionHasType quoteState "blockquote" /\
  selectionHasType (Helper.applyBlockStyle quoteState "blockquote") "paragraph".
Proof.
  assert (Ht : selectionHasType quoteState "blockquote").
  { apply (selectionHasType_allSelected quoteState "blockquote" ((0, 0), (0, 2)));
      reflexivity. }
  split; [reflexivity |]. split; [exact Ht |].
  exact (proj1 (applyBlockStyle_toggle quoteState "blockquote") eq_refl Ht).
Defined.

(** Bold toggled twice over "ab", of which only "a" was bold, leaves "a"
    without bold. *)
Lemma applyInlineStyle_twice_loses_style :
  selectedAt halfBoldState 0 0 = true /\
  styleAt halfBoldState 0 BOLD 0 = true /\
  styleAt (Helper.applyInlineStyle (Helper.applyInlineStyle halfBoldState BOLD) BOLD)
    0 BOLD 0 = false /\
  ~ (forall i p, selectedAt halfBoldState i p = true ->
       styleAt
         (Helper.applyInlineStyle (Helper.applyInlineStyle halfBoldState BOLD) BOLD)
         i BOLD p = styleAt halfBoldState i BOLD p).
Proof.
  split; [reflexivity |]. split; [reflexivity |]. split; [reflexivity |].
  intros H. specialize (H 0 0 eq_refl). discriminate H.
Qed.

Lemma applyInlineStyle_twice_witness :
  (selectionStyled helloState BOLD \/ selectionUnstyled helloState BOLD) /\
  forall i s p,
    styleAt (Helper.applyInlineStyle (Helper.applyInlineStyle helloState BOLD) BOLD)
      i s p = styleAt helloState i s p.
Proof.
  assert (Hnone : selectionUnstyled helloState BOLD).
  { intros i p _. destruct i as [|i]; reflexivity. }
  split; [right; exact Hnone |].
  exact (proj1 (applyInlineStyle_twice_restores helloState BOLD) (or_intror Hnone)).
Defined.

Lemma indent_depth_witness :
  depthsInRange listState /\
  depthsInRange
    (editorState
       (indentRun [decreaseButton; decreaseButton; decreaseButton;
                   increaseButton; tabKey {| shiftKey := false; eventKey := "Tab" |}]
          (sampleComponent listState))).
Proof.
  assert (H : depthsInRange (editorState (sampleComponent listState))).
  { repeat constructor; simpl; unfold maxIntend; lia. }
  split; [exact H |].
  exact (proj1 (indent_depth_stays_in_range (sampleComponent listState) _) H).
Defined.

Lemma activeStylesEffect_query_witness :
  let c := sampleComponent (Helper.applyInlineStyle helloState BOLD) in
  getBlockForKey (blocks (editorState c)) (anchorKey (selection (editorState c)))
    = Some (sampleBlock "a" "paragraph" "hello" [(BOLD, 0, 5)] 0) /\
  exists c',
    activeStylesEffect Draft.getCurrentInlineStyle c = Some c' /\
    inlineFlag c' BOLD = true /\ inlineFlag c' ITALIC = false /\
    selectedHeading c' = "paragraph".
Proof.
  split; [reflexivity |].
  destruct (activeStylesEffect_query
              (sampleComponent (Helper.applyInlineStyle helloState BOLD))
              (sampleBlock "a" "paragraph" "hello" [(BOLD, 0, 5)] 0) eq_refl)
    as (c' & Heff & _ & _ & _ & Hhead).
  exists c'. split; [exact Heff |].
  injection Heff as <-. repeat split.
Defined.

Lemma activeStylesEffect_block_flags_witness :
  let c := sampleComponent quoteState in
  getBlockForKey (blocks (editorState c)) (anchorKey (selection (editorState c)))
    = Some (sampleBlock "a" "blockquote" "ab" [] 0) /\
  exists c',
    activeStylesEffect (fun _ => []) c = Some c' /\
    blockFlags c' = [false; false; true; false] /\
    countTrue (blockFlags c') <= 1 /\
    selectedHeading c' = "blockquote".
Proof.
  split; [reflexivity |].
  exact (activeStylesEffect_block_flags (fun _ => []) (sampleComponent quoteState)
           (sampleBlock "a" "blockquote" "ab" [] 0) eq_refl).
Defined.

(** * The application and its storage *)

Lemma content_key_ne_type_key : localStorageContentKey <> localStorageContentTypeKey.
Proof. discriminate. Qed.

Lemma storeEffect_type a storage :
  storeEffect a storage !! localStorageContentTypeKey = Some (selectedContentType a).
Proof.
  unfold storeEffect. destruct (stringContent a).
  - rewrite lookup_insert_ne by exact content_key_ne_type_key.
    apply lookup_insert_eq.
  - apply lookup_insert_eq.
Qed.

Lemma storeEffect_content a storage :
  storeEffect a storage !! localStorageContentKey =
    match stringContent a with
    | Some content => Some content
    | None => storage !! localStorageContentKey
    end.
Proof.
  unfold storeEffect. destruct (stringContent a).
  - apply lookup_insert_eq.
  - apply lookup_insert_ne. intros E. symmetry in E.
    exact (content_key_ne_type_key E).
Qed.

Lemma storeEffect_other a storage k :
  k <> localStorageContentTypeKey -> k <> localStorageContentKey ->
  storeEffect a storage !! k = storage !! k.
Proof.
  intros Ht Hc. unfold storeEffect. destruct (stringContent a).
  - rewrite !lookup_insert_ne by congruence. reflexivity.
  - rewrite lookup_insert_ne by congruence. reflexivity.
Qed.

Lemma storeEffect_mirrors a storage :
  is_Some (stringContent a) -> mirrors (storeEffect a storage) a.
Proof.
  intros [content Hc]. split; [apply storeEffect_type |].
  rewrite storeEffect_content, Hc. reflexivity.
Qed.

(** X1: what the storing effect wrote, the loading effect of a later visit
    reads back: the content and the content type of the state that was
    stored, whatever else the storage held. *)
Theorem load_after_store (a a0 : AppState) (storage : gmap string string)
    (content : string) :
  stringContent a = Some content ->
  isContentType (selectedContentType a) = true ->
  stringContent (loadEffect (storeEffect a storage) a0) = Some content /\
  selectedContentType (loadEffect (storeEffect a storage) a0) = selectedContentType a /\
  isDarkModeEnabled (loadEffect (storeEffect a storage) a0) = isDarkModeEnabled a0.
Proof.
  intros Hc Ht. unfold loadEffect.
  rewrite storeEffect_content, storeEffect_type, Hc, Ht. repeat split.
Qed.

(** The loading effect always leaves a content, and a content type that
    passes the test when the one before did. *)
Lemma loadEffect_defined storage a :
  isContentType (selectedContentType a) = true ->
  is_Some (stringContent (loadEffect storage a)) /\
  isContentType (selectedContentType (loadEffect storage a)) = true.
Proof.
  intros Ht. unfold loadEffect.
  destruct (storage !! localStorageContentKey) as [c|]; [| split; [eexists; reflexivity | exact Ht]].
  destruct (storage !! localStorageContentTypeKey) as [t|]; [| split; [eexists; reflexivity | exact Ht]].
  destruct (isContentType t) eqn:E; split; try (eexists; reflexivity); assumption.
Qed.

Lemma commit_mirrors prev next storage :
  mirrors storage prev -> is_Some (stringContent next) ->
  mirrors (commit prev next storage) next.
Proof.
  intros [Ht Hc] Hsome. unfold commit.
  destruct (bool_decide (selectedContentType next = selectedContentType prev)) eqn:E1;
    [| apply storeEffect_mirrors; exact Hsome].
  destruct (bool_decide (stringContent next = stringContent prev)) eqn:E2;
    [| apply storeEffect_mirrors; exact Hsome].
  apply bool_decide_eq_true in E1, E2. simpl. split; congruence.
Qed.

Lemma commit_other prev next storage k :
  k <> localStorageContentTypeKey -> k <> localStorageContentKey ->
  commit prev next storage !! k = storage !! k.
Proof.
  intros Ht Hc. unfold commit.
  destruct (_ && _); [reflexivity | apply storeEffect_other; assumption].
Qed.

Lemma commit_changed prev next storage :
  stringContent next <> stringContent prev ->
  commit prev next storage = storeEffect next storage.
Proof.
  intros Hne. unfold commit. rewrite (bool_decide_eq_false_2 _ Hne).
  rewrite andb_false_r. reflexivity.
Qed.

Lemma mount_mounted storage : mounted storage (mount storage).
Proof.
  destruct (loadEffect_defined storage initialAppState eq_refl) as [Hsome Hty].
  split; [exact Hsome |]. split; [exact Hty |]. unfold mount. simpl. split.
  - rewrite commit_changed.
    + apply storeEffect_mirrors. exact Hsome.
    + destruct Hsome as [c ->]. discriminate.
  - intros k Ht Hc. rewrite commit_other, storeEffect_other by assumption.
    reflexivity.
Qed.

(** X2: after the first render and its effects there is a content, the
    content type is one of the two formats, the storage holds exactly that
    type and that content, and no other key of the storage was touched. *)
Theorem mount_mirrors (storage : gmap string string) :
  is_Some (stringContent (mount storage).1) /\
  isContentType (selectedContentType (mount storage).1) = true /\
  mirrors (mount storage).2 (mount storage).1 /\
  (forall k, k <> localStorageContentTypeKey -> k <> localStorageContentKey ->
             (mount storage).2 !! k = storage !! k).
Proof. exact (mount_mounted storage). Qed.

(** The effects of the application itself bring a stored content of a
    stored format back as the state and leave the storage as it was. *)
Lemma mount_stored (storage : gmap string string) (content t : string) :
  storage !! localStorageContentKey = Some content ->
  storage !! localStorageContentTypeKey = Some t ->
  isContentType t = true ->
  mount storage =
    ({| stringContent := Some content; selectedContentType := t;
        isDarkModeEnabled := false |}, storage).
Proof.
  intros Hc Ht Hty. unfold mount.
  assert (Hl : loadEffect storage initialAppState =
               {| stringContent := Some content; selectedContentType := t;
                  isDarkModeEnabled := false |}).
  { unfold loadEffect. rewrite Hc, Ht, Hty. reflexivity. }
  rewrite Hl. f_equal. rewrite commit_changed by discriminate.
  apply map_eq. intros k.
  destruct (decide (k = localStorageContentKey)) as [-> | Hk1].
  { rewrite storeEffect_content. simpl. symmetry. exact Hc. }
  destruct (decide (k = localStorageContentTypeKey)) as [-> | Hk2].
  { rewrite storeEffect_type. simpl. symmetry. exact Ht. }
  rewrite !storeEffect_other by assumption. reflexivity.
Qed.

(** X4: when the storage has no content, no content type, or a content type
    that is neither format, the application starts with the empty string as
    Markdown, and writes that over whatever content was stored. *)
Theorem mount_falls_back (storage : gmap string string) :
  storage !! localStorageContentKey = None \/
  match storage !! localStorageContentTypeKey with
  | Some t => isContentType t = false
  | None => True
  end ->
  (mount storage).1 =
    {| stringContent := Some ""; selectedContentType := "markdown";
       isDarkModeEnabled := false |} /\
  (mount storage).2 !! localStorageContentKey = Some "" /\
  (mount storage).2 !! localStorageContentTypeKey = Some "markdown".
Proof.
  intros Hcase.
  assert (Hl : loadEffect storage initialAppState =
               {| stringContent := Some ""; selectedContentType := "markdown";
                  isDarkModeEnabled := false |}).
  { unfold loadEffect.
    destruct (storage !! localStorageContentKey) as [c|]; [| reflexivity].
    destruct Hcase as [? | Hcase]; [discriminate |].
    destruct (storage !! localStorageContentTypeKey) as [t|]; [| reflexivity].
    rewrite Hcase. reflexivity. }
  unfold mount. rewrite Hl. simpl. split; [reflexivity |].
  rewrite commit_changed by discriminate.
  split; [rewrite storeEffect_content | rewrite storeEffect_type]; reflexivity.
Qed.

Lemma appHandle_defined ev a :
  is_Some (stringContent a) -> isContentType (selectedContentType a) = true ->
  is_Some (stringContent (appHandle ev a)) /\
  isContentType (selectedContentType (appHandle ev a)) = true.
Proof.
  intros Hsome Hty. destruct ev as [[o|] | [[|]|] | newContent]; simpl;
    try (split; assumption); try (split; [eexists; reflexivity | assumption]).
  destruct (isContentType (optionKey o)) eqn:E; split; assumption.
Qed.

Lemma appStep_mounted storage0 x ev :
  mounted storage0 x -> mounted storage0 (appStep x ev).
Proof.
  intros (Hsome & Hty & Hmir & Hother).
  destruct (appHandle_defined ev x.1 Hsome Hty) as [Hsome' Hty'].
  unfold appStep, mounted. cbn [fst snd]. split; [exact Hsome' |]. split; [exact Hty' |].
  split; [apply commit_mirrors; assumption |].
  intros k Ht Hc. rewrite commit_other by assumption. apply Hother; assumption.
Qed.

Lemma appRun_mounted storage0 evs x :
  mounted storage0 x -> mounted storage0 (appRun evs x).
Proof.
  unfold appRun. revert x. induction evs as [|ev evs IH]; intros x Hx; simpl.
  - exact Hx.
  - apply IH. apply appStep_mounted. exact Hx.
Qed.

Lemma appRun_defined storage evs :
  is_Some (stringContent (appRun evs (mount storage)).1) /\
  isContentType (selectedContentType (appRun evs (mount storage)).1) = true.
Proof.
  destruct (appRun_mounted storage evs (mount storage) (mount_mounted storage))
    as (H1 & H2 & _). split; assumption.
Qed.

(** X5: whatever the user then does (content type changes, dark mode
    toggles, content updates from the editor), there is a content, the
    content type is one of the two formats, the storage holds exactly the
    type and the content of the state, and no other key of the storage is
    touched. *)
Theorem appRun_keeps_storage_in_step (storage : gmap string string)
    (evs : list AppEvent) :
  let x := appRun evs (mount storage) in
  is_Some (stringContent x.1) /\
  isContentType (selectedContentType x.1) = true /\
  mirrors x.2 x.1 /\
  (forall k, k <> localStorageContentTypeKey -> k <> localStorageContentKey ->
             x.2 !! k = storage !! k).
Proof.
  apply (appRun_mounted storage evs (mount storage)). apply mount_mounted.
Qed.

Lemma isContentType_cases t :
  isContentType t = true -> t = "markdown" \/ t = "html".
Proof.
  unfold isContentType. intros H. apply orb_true_iff in H.
  destruct H as [H | H]; apply String.eqb_eq in H; auto.
Qed.

(** X6: in every state the mounted application reaches, the editor it
    renders reports its content through the export of the selected format,
    in one call: the branch of the effect that reports the empty string is
    never taken. *)
Theorem editor_always_exports
    (toMarkdown toHtml : EditorState -> string)
    (storage : gmap string string) (evs : list AppEvent) (st : EditorState) :
  let a := (appRun evs (mount storage)).1 in
  (selectedContentType a = "markdown" /\
   contentUpdateEffect toMarkdown toHtml (editorProps a) st = [toMarkdown st]) \/
  (selectedContentType a = "html" /\
   contentUpdateEffect toMarkdown toHtml (editorProps a) st = [toHtml st]).
Proof.
  intros a.
  destruct (appRun_defined storage evs) as [_ Hty].
  fold a in Hty. unfold contentUpdateEffect. simpl.
  destruct (isContentType_cases _ Hty) as [E | E]; rewrite E; [left | right];
    split; reflexivity.
Qed.

Lemma commit_same a storage : commit a a storage = storage.
Proof.
  unfold commit. rewrite !bool_decide_eq_true_2 by reflexivity. reflexivity.
Qed.

(** X7: choosing the other format in the dropdown makes the editor report
    its content again, so the application ends with the export of the
    editor state in the chosen format under the chosen type, and the
    storage holds that pair; an option that is neither format changes
    nothing. *)
Theorem content_type_switch_reexports
    (toMarkdown toHtml : EditorState -> string)
    (storage : gmap string string) (evs : list AppEvent) (st : EditorState)
    (label : string) :
  let x := appRun evs (mount storage) in
  let switch k :=
    let x1 := appStep x (contentTypeChange
                           (Some {| optionKey := k; optionText := label |})) in
    appRun (contentUpdate <$>
              contentUpdateEffect toMarkdown toHtml (editorProps x1.1) st) x1 in
  (switch "html").1 =
    {| stringContent := Some (toHtml st); selectedContentType := "html";
       isDarkModeEnabled := isDarkModeEnabled x.1 |} /\
  mirrors (switch "html").2 (switch "html").1 /\
  (switch "markdown").1 =
    {| stringContent := Some (toMarkdown st); selectedContentType := "markdown";
       isDarkModeEnabled := isDarkModeEnabled x.1 |} /\
  mirrors (switch "markdown").2 (switch "markdown").1 /\
  (forall o, isContentType (optionKey o) = false ->
             appStep x (contentTypeChange (Some o)) = x).
Proof.
  intros x switch.
  assert (Hx : mounted storage x)
    by (apply appRun_mounted, mount_mounted).
  assert (Hm : forall k, mounted storage (switch k)).
  { intros k. unfold switch. apply appRun_mounted, appStep_mounted. exact Hx. }
  split; [reflexivity |]. split; [apply (Hm "html") |].
  split; [reflexivity |]. split; [apply (Hm "markdown") |].
  intros o Ho. unfold appStep. simpl. rewrite Ho, commit_same.
  destruct x; reflexivity.
Qed.

(** X8: the loop between the editor and the application comes to rest
    after one round: when the editor reports its content a second time for
    the same editor state, the state of the application does not change and
    nothing is written to the storage. *)
Theorem editorRound_settles
    (toMarkdown toHtml : EditorState -> string) (st : EditorState)
    (a : AppState) (storage : gmap string string) :
  let a1 := editorRound toMarkdown toHtml st a in
  editorRound toMarkdown toHtml st a1 = a1 /\
  commit a1 (editorRound toMarkdown toHtml st a1) storage = storage.
Proof.
  intros a1.
  assert (H : editorRound toMarkdown toHtml st a1 = a1).
  { unfold a1, editorRound, contentUpdateEffect. simpl.
    destruct (String.eqb (selectedContentType a) "markdown");
      [| destruct (String.eqb (selectedContentType a) "html")]; reflexivity. }
  split; [exact H |]. rewrite H. apply commit_same.
Qed.

Lemma loadEffect_stored storage a content t :
  storage !! localStorageContentKey = Some content ->
  storage !! localStorageContentTypeKey = Some t ->
  isContentType t = true ->
  loadEffect storage a = setStringContent content (setSelectedContentType t a).
Proof. intros Hc Ht Hty. unfold loadEffect. rewrite Hc, Ht, Hty. reflexivity. Qed.

(** X9: a stored content of a stored format is what the editor starts
    from: it is imported by the import of that format, unless it is the
    empty string, in which case the editor starts empty; and the first
    report of the editor replaces the content of the application by the
    export, in that format, of what was imported. *)
Theorem stored_content_is_imported
    (ofMarkdown ofHtml : string -> EditorState) (empty : EditorState)
    (toMarkdown toHtml : EditorState -> string)
    (storage : gmap string string) (content t : string) :
  storage !! localStorageContentKey = Some content ->
  storage !! localStorageContentTypeKey = Some t ->
  isContentType t = true ->
  let a := (mount storage).1 in
  let m := editorMount ofMarkdown ofHtml empty toMarkdown toHtml a in
  initialSource (editorProps a) =
    (if String.eqb content "" then fromEmpty
     else if String.eqb t "markdown" then fromMarkdown content
     else fromHtml content) /\
  m.1 =
    (if String.eqb content "" then empty
     else if String.eqb t "markdown" then ofMarkdown content
     else ofHtml content) /\
  stringContent m.2 =
    Some ((if String.eqb t "markdown" then toMarkdown else toHtml) m.1) /\
  selectedContentType m.2 = t.
Proof.
  intros Hc Ht Hty a m.
  assert (Ha : a = setStringContent content
                     (setSelectedContentType t initialAppState))
    by (apply loadEffect_stored; assumption).
  assert (Hsrc : initialSource (editorProps a) =
                 (if String.eqb content "" then fromEmpty
                  else if String.eqb t "markdown" then fromMarkdown content
                  else fromHtml content)).
  { rewrite Ha. unfold initialSource. simpl.
    destruct (String.eqb content ""); [reflexivity |]. simpl.
    destruct (isContentType_cases t Hty) as [-> | ->]; reflexivity. }
  split; [exact Hsrc |].
  assert (Hst : m.1 = (if String.eqb content "" then empty
                       else if String.eqb t "markdown" then ofMarkdown content
                       else ofHtml content)).
  { unfold m, editorMount. cbn [fst]. unfold initialEditorState. rewrite Hsrc.
    destruct (String.eqb content ""); [reflexivity |].
    destruct (String.eqb t "markdown"); reflexivity. }
  split; [exact Hst |].
  unfold m, editorMount, editorRound, contentUpdateEffect. cbn [fst snd].
  rewrite Ha. simpl.
  destruct (isContentType_cases t Hty) as [-> | ->]; split; reflexivity.
Qed.

(** * More on the component *)

Lemma activeStylesEffect_None getStyle c :
  activeStylesEffect getStyle c = None <->
  getBlockForKey (blocks (editorState c))
    (anchorKey (selection (editorState c))) = None.
Proof.
  unfold activeStylesEffect.
  destruct (getBlockForKey _ _); split; intros H; (discriminate || reflexivity).
Qed.

Lemma activeStylesEffect_ext getStyle c c2 :
  editorState c2 = editorState c -> urlValue c2 = urlValue c ->
  isUrlInputVisible c2 = isUrlInputVisible c ->
  activeStylesEffect getStyle c2 = activeStylesEffect getStyle c.
Proof.
  intros He Hu Hv. unfold activeStylesEffect. rewrite He, Hu, Hv. reflexivity.
Qed.

(** X10: the derived flags and the heading selection are a function of the
    editor state alone: two component states with the same editor state
    (and the same dialog fields, which the effect passes on) come out of
    the effect equal, whatever their flags were; so running the effect on
    its own result changes nothing.  The effect fails exactly when no block
    carries the anchor key. *)
Theorem activeStylesEffect_settles
    (getStyle : EditorState -> list InlineStyle) (c : TextEditorState) :
  (forall c2, editorState c2 = editorState c -> urlValue c2 = urlValue c ->
     isUrlInputVisible c2 = isUrlInputVisible c ->
     activeStylesEffect getStyle c2 = activeStylesEffect getStyle c) /\
  (forall c', activeStylesEffect getStyle c = Some c' ->
     activeStylesEffect getStyle c' = Some c') /\
  (activeStylesEffect getStyle c = None <->
   getBlockForKey (blocks (editorState c))
     (anchorKey (selection (editorState c))) = None).
Proof.
  split; [apply activeStylesEffect_ext |]. split; [| apply activeStylesEffect_None].
  intros c' H. rewrite <- H. apply activeStylesEffect_ext;
    unfold activeStylesEffect in H;
    destruct (getBlockForKey _ _); try discriminate;
    injection H as <-; reflexivity.
Qed.

(** X11: for each option of the heading dropdown the handler requests the
    block type named by the key of the option and selects that key: the
    fallback branch is not reachable from the dropdown.  Without an option
    nothing changes; a key that is not among the options leaves the editor
    state alone and selects [paragraph]. *)
Theorem onHeadingChange_options
    (apply : EditorState -> BlockType -> EditorState) (c : TextEditorState) :
  (forall o, In o headingOptions ->
     onHeadingChange apply (Some o) c =
       setSelectedHeading (optionKey o)
         (setEditorState (apply (editorState c) (optionKey o)) c)) /\
  onHeadingChange apply None c = c /\
  (forall o, ~ In (optionKey o) (optionKey <$> headingOptions) ->
     onHeadingChange apply (Some o) c = setSelectedHeading "paragraph" c).
Proof.
  split; [| split; [reflexivity |]].
  - intros o [<- | [<- | [<- | [<- | []]]]]; reflexivity.
  - intros o Hn. unfold onHeadingChange.
    destruct (String.eqb_spec (optionKey o) "paragraph") as [E | _];
      [destruct Hn; rewrite E; simpl; auto 6 |].
    destruct (String.eqb_spec (optionKey o) "header-one") as [E | _];
      [destruct Hn; rewrite E; simpl; auto 6 |].
    destruct (String.eqb_spec (optionKey o) "header-two") as [E | _];
      [destruct Hn; rewrite E; simpl; auto 6 |].
    destruct (String.eqb_spec (optionKey o) "header-three") as [E | _];
      [destruct Hn; rewrite E; simpl; auto 6 |].
    reflexivity.
Qed.

Lemma dialogStep_quiet addLink c ev :
  quiet ev = true -> editorState (dialogStep addLink c ev) = editorState c.
Proof.
  destruct ev as [| [v|] | event | |]; simpl; try reflexivity; try discriminate.
  unfold onUrlKeyDown. destruct (String.eqb (eventKey event) "Enter");
    [discriminate | reflexivity].
Qed.

Lemma dialogRun_quiet addLink evs c :
  forallb quiet evs = true ->
  editorState (dialogRun addLink evs c) = editorState c.
Proof.
  unfold dialogRun. revert c. induction evs as [|ev evs IH]; intros c; simpl.
  - reflexivity.
  - intros H. apply andb_true_iff in H. destruct H as [Hev Hevs].
    rewrite IH by exact Hevs. apply dialogStep_quiet. exact Hev.
Qed.

(** X12: in the link dialog, whatever is typed and whichever keys other
    than enter are pressed, the editor state stays as it is; the button and
    the enter key then add the link with the url typed last, the abort
    button adds none whatever [addLink] would do, and all three hide the
    dialog and clear the url field. *)
Theorem link_dialog_session
    (addLink addLink' : EditorState -> string -> EditorState)
    (typing : list DialogEvent) (v : string) (shift : bool)
    (c : TextEditorState) :
  forallb quiet typing = true ->
  let c1 := dialogRun addLink (typing ++ [urlChange (Some v)]) c in
  let enter := urlKeyDown {| shiftKey := shift; eventKey := "Enter" |} in
  editorState c1 = editorState c /\ urlValue c1 = v /\
  editorState (dialogStep addLink c1 addLinkClick) = addLink (editorState c) v /\
  dialogStep addLink c1 enter = dialogStep addLink c1 addLinkClick /\
  editorState (dialogStep addLink' c1 abortClick) = editorState c /\
  (forall ev, In ev [addLinkClick; enter; abortClick] ->
     isUrlInputVisible (dialogStep addLink c1 ev) = false /\
     urlValue (dialogStep addLink c1 ev) = "").
Proof.
  intros Hq c1 enter.
  assert (He : editorState c1 = editorState c).
  { unfold c1. apply dialogRun_quiet. rewrite forallb_app, Hq. reflexivity. }
  assert (Hu : urlValue c1 = v).
  { unfold c1, dialogRun. rewrite fold_left_app. reflexivity. }
  split; [exact He |]. split; [exact Hu |].
  split; [simpl; rewrite He, Hu; reflexivity |].
  split; [reflexivity |]. split; [exact He |].
  intros ev [<- | [<- | [<- | []]]]; split; reflexivity.
Qed.

(** X13: a key command is reported as handled exactly when it is not
    [backspace] and [RichUtils] returns a state for it, and that state then
    becomes the editor state; when it is not handled the component state is
    left as it was; in no case does anything but the editor state change. *)
Theorem handleKeyCommand_outcome
    (lib : EditorState -> string -> option EditorState)
    (command : string) (st : EditorState) (c : TextEditorState) :
  let r := handleKeyCommand lib command st c in
  (r.1 = handled <-> command <> "backspace" /\ is_Some (lib st command)) /\
  (r.1 = handled -> lib st command = Some (editorState r.2)) /\
  (r.1 = not_handled -> r.2 = c) /\
  r.2 = setEditorState (editorState r.2) c.
Proof.
  unfold handleKeyCommand.
  destruct (String.eqb_spec command "backspace") as [E | E]; simpl.
  - repeat split; try discriminate; try (destruct c; reflexivity).
    intros [Hn _]. contradiction.
  - destruct (lib st command) as [st'|]; simpl; repeat split;
      try discriminate; try (destruct c; reflexivity); try assumption;
      try (eexists; reflexivity).
    intros [_ [x Hx]]. discriminate.
Qed.

(** X14: the class of the blockquote style is given to the blocks of type
    [blockquote] and to no other; so the anchor block has it exactly when
    the derived blockquote flag of the toolbar is set. *)
Theorem blockStyleFn_blockquote
    (customBlockQuoteStyle : string)
    (getStyle : EditorState -> list InlineStyle)
    (c : TextEditorState) (b : Block) :
  customBlockQuoteStyle <> "" ->
  getBlockForKey (blocks (editorState c))
    (anchorKey (selection (editorState c))) = Some b ->
  (forall b', blockStyleFn customBlockQuoteStyle b' = customBlockQuoteStyle <->
              type b' = "blockquote") /\
  (forall b', blockStyleFn customBlockQuoteStyle b' = "" <->
              type b' <> "blockquote") /\
  exists c', activeStylesEffect getStyle c = Some c' /\
             (isBlockquoteActive c' = true <->
              blockStyleFn customBlockQuoteStyle b = customBlockQuoteStyle).
Proof.
  intros Hcls Hb.
  assert (H1 : forall b', blockStyleFn customBlockQuoteStyle b'
                            = customBlockQuoteStyle <-> type b' = "blockquote").
  { intros b'. unfold blockStyleFn.
    destruct (String.eqb_spec (type b') "blockquote"); split; intros; congruence. }
  split; [exact H1 |]. split.
  - intros b'. unfold blockStyleFn.
    destruct (String.eqb_spec (type b') "blockquote"); split; intros; congruence.
  - unfold activeStylesEffect. rewrite Hb. eexists. split; [reflexivity |].
    simpl. rewrite H1. apply String.eqb_eq.
Qed.

(** * The further properties on sample inputs *)

Lemma load_after_store_witness :
  let a := {| stringContent := Some "# hi"; selectedContentType := "markdown";
              isDarkModeEnabled := true |} in
  stringContent a = Some "# hi" /\
  isContentType (selectedContentType a) = true /\
  stringContent (loadEffect (storeEffect a htmlStorage) initialAppState)
    = Some "# hi" /\
  selectedContentType (loadEffect (storeEffect a htmlStorage) initialAppState)
    = "markdown".
Proof.
  split; [reflexivity |]. split; [reflexivity |].
  destruct (load_after_store
              {| stringContent := Some "# hi"; selectedContentType := "markdown";
                 isDarkModeEnabled := true |}
              initialAppState htmlStorage "# hi" eq_refl eq_refl)
    as (H1 & H2 & _).
  split; [exact H1 | exact H2].
Defined.

Lemma mount_falls_back_witness :
  untypedStorage !! localStorageContentTypeKey = None /\
  untypedStorage !! localStorageContentKey = Some "hello" /\
  (mount untypedStorage).1 =
    {| stringContent := Some ""; selectedContentType := "markdown";
       isDarkModeEnabled := false |} /\
  (mount untypedStorage).2 !! localStorageContentKey = Some "".
Proof.
  split; [reflexivity |]. split; [reflexivity |].
  destruct (mount_falls_back untypedStorage (or_intror I)) as (H1 & H2 & _).
  split; [exact H1 | exact H2].
Defined.

Lemma stored_content_is_imported_witness :
  let a := (mount htmlStorage).1 in
  let m := editorMount sampleImport sampleImport (sampleImport "")
             (sampleExport "md:") (sampleExport "html:") a in
  htmlStorage !! localStorageContentKey = Some "<p>hello</p>" /\
  htmlStorage !! localStorageContentTypeKey = Some "html" /\
  initialSource (editorProps a) = fromHtml "<p>hello</p>" /\
  stringContent m.2 = Some "html:<p>hello</p>".
Proof.
  split; [reflexivity |]. split; [reflexivity |].
  destruct (stored_content_is_imported sampleImport sampleImport (sampleImport "")
              (sampleExport "md:") (sampleExport "html:")
              htmlStorage "<p>hello</p>" "html" eq_refl eq_refl eq_refl)
    as (H1 & H2 & H3 & _).
  split; [exact H1 |]. rewrite H3, H2. reflexivity.
Defined.

Lemma link_dialog_session_witness :
  let typing := [addLinkMouseDown; urlChange (Some "h");
                 urlKeyDown {| shiftKey := false; eventKey := "t" |}] in
  let c1 := dialogRun (fun _ u => sampleImport u)
              (typing ++ [urlChange (Some "http://x")])
              (sampleComponent helloState) in
  forallb quiet typing = true /\
  editorState c1 = helloState /\
  editorState (dialogStep (fun _ u => sampleImport u) c1 addLinkClick)
    = sampleImport "http://x" /\
  editorState (dialogStep (fun _ u => sampleImport u) c1 abortClick) = helloState.
Proof.
  split; [reflexivity |].
  destruct (link_dialog_session (fun _ u => sampleImport u)
              (fun _ u => sampleImport u)
              [addLinkMouseDown; urlChange (Some "h");
               urlKeyDown {| shiftKey := false; eventKey := "t" |}]
              "http://x" false (sampleComponent helloState) eq_refl)
    as (H1 & _ & H3 & _ & H5 & _).
  split; [exact H1 |]. split; [exact H3 | exact H5].
Defined.

Lemma blockStyleFn_blockquote_witness :
  let c := sampleComponent quoteState in
  "css-0" <> "" /\
  getBlockForKey (blocks (editorState c)) (anchorKey (selection (editorState c)))
    = Some (sampleBlock "a" "blockquote" "ab" [] 0) /\
  exists c', activeStylesEffect (fun _ => []) c = Some c' /\
             (isBlockquoteActive c' = true <->
              blockStyleFn "css-0" (sampleBlock "a" "blockquote" "ab" [] 0) = "css-0").
Proof.
  assert (Hne : "css-0" <> "") by discriminate.
  split; [exact Hne |]. split; [reflexivity |].
  exact (proj2 (proj2 (blockStyleFn_blockquote "css-0" (fun _ => [])
                         (sampleComponent quoteState)
                         (sampleBlock "a" "blockquote" "ab" [] 0) Hne eq_refl))).
Defined.

(** * The reports of the editor, counted *)

Lemma reportLoop_two toMarkdown toHtml n st a e :
  contentUpdateEffect toMarkdown toHtml (editorProps a) st = [e] ->
  reportLoop toMarkdown toHtml (S (S n)) st a =
    if bool_decide (stringContent a = Some e) then [e] else [e; e].
Proof.
  intros He.
  assert (He' : contentUpdateEffect toMarkdown toHtml
                  (editorProps (handleContentUpdate e a)) st = [e]) by exact He.
  cbn [reportLoop]. rewrite He. cbn [receive fold_left].
  rewrite He'. cbn [receive fold_left].
  destruct (decide (stringContent a = Some e)) as [E | E].
  - rewrite (bool_decide_eq_true_2 (stringContent a = Some e)) by exact E.
    rewrite bool_decide_eq_true_2 by (simpl; congruence). reflexivity.
  - rewrite (bool_decide_eq_false_2 (stringContent a = Some e)) by exact E.
    rewrite bool_decide_eq_false_2 by (simpl; congruence).
    rewrite bool_decide_eq_true_2 by reflexivity. reflexivity.
Qed.

(** C8, as the code has it: each run of the effect calls
    [handleContentUpdate] exactly once, with the Markdown export of the
    state when the content type is [markdown] and with its HTML export when
    it is [html].  The effect runs when the editor state or the props have
    changed.  In the application, a change of the editor state therefore
    leads to one call when the export is the content the application
    already holds, and to two calls, both with that export, when it is
    not: the first report makes the application render and hand over new
    props. *)
Theorem contentUpdate_calls_per_change
    (toMarkdown toHtml : EditorState -> string)
    (getStyle : EditorState -> list InlineStyle)
    (content : option string) (c : TextEditorState)
    (storage : gmap string string) (evs : list AppEvent)
    (st : EditorState) (n : nat) :
  let md := {| initialContent := content; contentType := "markdown" |} in
  let html := {| initialContent := content; contentType := "html" |} in
  let a := (appRun evs (mount storage)).1 in
  let e := if String.eqb (selectedContentType a) "markdown"
           then toMarkdown st else toHtml st in
  contentUpdateEffect toMarkdown toHtml md (editorState c)
    = [toMarkdown (editorState c)] /\
  contentUpdateEffect toMarkdown toHtml html (editorState c)
    = [toHtml (editorState c)] /\
  fst (afterEditorStateChange toMarkdown toHtml getStyle md c)
    = [toMarkdown (editorState c)] /\
  fst (afterEditorStateChange toMarkdown toHtml getStyle html c)
    = [toHtml (editorState c)] /\
  contentUpdateEffect toMarkdown toHtml (editorProps a) st = [e] /\
  reportLoop toMarkdown toHtml (S (S n)) st a =
    (if bool_decide (stringContent a = Some e) then [e] else [e; e]).
Proof.
  intros md html a e.
  destruct (contentUpdateEffect_run toMarkdown toHtml getStyle content c)
    as (H1 & H2 & H3 & H4).
  split; [exact H1 |]. split; [exact H2 |]. split; [exact H3 |].
  split; [exact H4 |].
  assert (He : contentUpdateEffect toMarkdown toHtml (editorProps a) st = [e]).
  { destruct (appRun_defined storage evs) as [_ Hty]. fold a in Hty.
    unfold e, contentUpdateEffect. simpl.
    destruct (isContentType_cases _ Hty) as [E | E]; rewrite E; reflexivity. }
  split; [exact He |]. apply reportLoop_two. exact He.
Qed.

(** The application holds the HTML content it loaded; the editor state
    changes to a document whose export is another string: the callback is
    called twice. *)
Lemma contentUpdate_called_twice :
  let a := (mount htmlStorage).1 in
  let calls := reportLoop (sampleExport "md:") (sampleExport "html:") 5
                 (sampleImport "x") a in
  stringContent a = Some "<p>hello</p>" /\
  calls = ["html:x"; "html:x"] /\
  List.length calls <> 1.
Proof. split; [reflexivity |]. split; [reflexivity |]. discriminate. Qed.

(** * The stored content and the first report *)

Lemma reports_stored toMarkdown toHtml st content t dark e storage :
  let a := {| stringContent := Some content; selectedContentType := t;
              isDarkModeEnabled := dark |} in
  storage !! localStorageContentTypeKey = Some t ->
  contentUpdateEffect toMarkdown toHtml (editorProps a) st = [e] ->
  appRun (contentUpdate <$> reportLoop toMarkdown toHtml 2 st a) (a, storage) =
    ({| stringContent := Some e; selectedContentType := t;
        isDarkModeEnabled := dark |},
     if bool_decide (e = content) then storage
     else <[localStorageContentKey := e]> storage).
Proof.
  intros a Ht He. rewrite (reportLoop_two toMarkdown toHtml 0 st a e He).
  destruct (decide (e = content)) as [-> | Hne].
  - rewrite bool_decide_eq_true_2 by reflexivity.
    rewrite (bool_decide_eq_true_2 (content = content)) by reflexivity.
    unfold appRun, appStep. simpl. rewrite commit_same. reflexivity.
  - rewrite bool_decide_eq_false_2 by (simpl; congruence).
    rewrite (bool_decide_eq_false_2 (e = content)) by exact Hne.
    unfold appRun, appStep. cbn [fmap list_fmap fold_left fst snd appHandle].
    rewrite commit_same.
    rewrite commit_changed by (simpl; congruence).
    f_equal. unfold storeEffect. simpl. rewrite (insert_id storage _ _ Ht).
    reflexivity.
Qed.

(** X3: when the storage holds a content and a content type that is one of
    the two formats, the effects of the application bring that pair back
    as the state and leave the storage as it was.  The editor then starts
    from that content and reports: the content of the application, and the
    stored content, become the export, in the stored format, of what the
    editor started from, the stored type and every other key staying; so
    the storage ends as it was exactly when that export is the stored
    content. *)
Theorem mount_restores
    (ofMarkdown ofHtml : string -> EditorState) (empty : EditorState)
    (toMarkdown toHtml : EditorState -> string)
    (storage : gmap string string) (content t : string) :
  storage !! localStorageContentKey = Some content ->
  storage !! localStorageContentTypeKey = Some t ->
  isContentType t = true ->
  let st := if String.eqb content "" then empty
            else if String.eqb t "markdown" then ofMarkdown content
            else ofHtml content in
  let e := (if String.eqb t "markdown" then toMarkdown else toHtml) st in
  let x := firstReport ofMarkdown ofHtml empty toMarkdown toHtml (mount storage) in
  mount storage =
    ({| stringContent := Some content; selectedContentType := t;
        isDarkModeEnabled := false |}, storage) /\
  x.1 = {| stringContent := Some e; selectedContentType := t;
           isDarkModeEnabled := false |} /\
  x.2 = <[localStorageContentKey := e]> storage /\
  (x.2 = storage <-> e = content).
Proof.
  intros Hc Ht Hty st e x.
  pose proof (mount_stored storage content t Hc Ht Hty) as Hm.
  split; [exact Hm |].
  set (a := {| stringContent := Some content; selectedContentType := t;
               isDarkModeEnabled := false |}) in *.
  assert (Hst : initialEditorState ofMarkdown ofHtml empty (editorProps a) = st).
  { unfold initialEditorState, initialSource, st. simpl.
    destruct (String.eqb content ""); [reflexivity |]. simpl.
    destruct (isContentType_cases t Hty) as [-> | ->]; reflexivity. }
  assert (He : contentUpdateEffect toMarkdown toHtml (editorProps a) st = [e]).
  { unfold contentUpdateEffect, e. simpl.
    destruct (isContentType_cases t Hty) as [-> | ->]; reflexivity. }
  assert (Hx : x = ({| stringContent := Some e; selectedContentType := t;
                       isDarkModeEnabled := false |},
                    if bool_decide (e = content) then storage
                    else <[localStorageContentKey := e]> storage)).
  { unfold x, firstReport. rewrite Hm. cbn [fst snd]. rewrite Hst.
    apply (reports_stored toMarkdown toHtml st content t false e storage Ht He). }
  assert (H2 : x.2 = <[localStorageContentKey := e]> storage).
  { rewrite Hx. cbn [snd]. case_bool_decide as E; [| reflexivity].
    symmetry. apply insert_id. rewrite E. exact Hc. }
  split; [rewrite Hx; reflexivity |]. split; [exact H2 |].
  rewrite H2. split.
  - intros H. assert (H' : <[localStorageContentKey := e]> storage
                             !! localStorageContentKey = Some content)
      by (rewrite H; exact Hc).
    rewrite lookup_insert_eq in H'. congruence.
  - intros ->. apply insert_id. exact Hc.
Qed.

Lemma mount_restores_witness :
  let x := firstReport sampleImport sampleImport (sampleImport "")
             (sampleExport "md:") (sampleExport "html:") (mount htmlStorage) in
  htmlStorage !! localStorageContentKey = Some "<p>hello</p>" /\
  htmlStorage !! localStorageContentTypeKey = Some "html" /\
  mount htmlStorage =
    ({| stringContent := Some "<p>hello</p>"; selectedContentType := "html";
        isDarkModeEnabled := false |}, htmlStorage) /\
  stringContent x.1 = Some "html:<p>hello</p>" /\
  x.2 !! localStorageContentKey = Some "html:<p>hello</p>" /\
  x.2 <> htmlStorage.
Proof.
  split; [reflexivity |]. split; [reflexivity |].
  destruct (mount_restores sampleImport sampleImport (sampleImport "")
              (sampleExport "md:") (sampleExport "html:")
              htmlStorage "<p>hello</p>" "html" eq_refl eq_refl eq_refl)
    as (H1 & H2 & H3 & H4).
  split; [exact H1 |]. split; [rewrite H2; reflexivity |].
  split; [rewrite H3; apply lookup_insert_eq |].
  intros E. apply H4 in E. discriminate E.
Defined.
